(** * pymdp tutorial and A-matrix demo: grid-world generative model

    A shallow embedding of the two notebooks of the repository:

    - the tutorial notebook (stored after docs/requirements.txt), which
      builds [state_mapping], [grid], the likelihood matrix [A], the
      next-state dictionary [P] and the transition array [B] of a 3x3
      grid world;
    - examples/A_matrix_demo.ipynb, which fills a labelled likelihood
      table through [.loc] and builds a one-hot observation.

    Python values are modelled as the notebooks use them: integers as [Z],
    float64 cells as binary64 primitive floats, dictionaries as
    insertion-ordered association lists, numpy arrays as nested lists
    with numpy's index rules, exceptions as the [Raise] branch of [res]. *)

From Stdlib Require Import ZArith Lia Bool.
From Stdlib Require Import Floats.PrimFloat.
From Stdlib Require Uint63.
From stdpp Require Import list strings.

Set Warnings "-inexact-float".
Local Open Scope Z_scope.

(** ** Exceptions *)

Inductive exn := KeyError | IndexError | TypeError | ValueError | AssertionError.

Inductive res (A : Type) : Type :=
  | Ok (a : A)
  | Raise (e : exn).
Arguments Ok {A} a.
Arguments Raise {A} e.

Global Instance res_ret : MRet res := @Ok.
Global Instance res_bind : MBind res := λ A B f m,
  match m with Ok a => f a | Raise e => Raise e end.
Global Instance res_fmap : FMap res := λ A B f m,
  match m with Ok a => Ok (f a) | Raise e => Raise e end.

(** [for x in l: body], threading the loop state and stopping at the first
    exception. *)
Fixpoint for_in {A S : Type} (l : list A) (body : A → S → res S) (st : S) : res S :=
  match l with
  | [] => Ok st
  | x :: l' => st' ← body x st; for_in l' body st'
  end.

(** [[f(x) for x in l]] where [f] may raise. *)
Fixpoint collect {A B : Type} (f : A → res B) (l : list A) : res (list B) :=
  match l with
  | [] => Ok []
  | x :: l' => y ← f x; ys ← collect f l'; Ok (y :: ys)
  end.

(** A loop whose body may [break]: the body says whether the loop goes on. *)
Inductive flow (S : Type) : Type :=
  | Continue (st : S)
  | Break (st : S).
Arguments Continue {S} st.
Arguments Break {S} st.

Fixpoint for_in_break {A S : Type} (l : list A) (body : A → S → res (flow S)) (st : S)
    : res S :=
  match l with
  | [] => Ok st
  | x :: l' =>
      r ← body x st;
      match r with
      | Continue st' => for_in_break l' body st'
      | Break st' => Ok st'
      end
  end.

(** [range(n)] *)
Definition range (n : nat) : list Z := Z.of_nat <$> seq 0 n.

(** ** Dictionaries (insertion ordered) *)

Section dict.
Context {K V : Type} `{EqDecision K}.

Fixpoint dict_lookup (k : K) (d : list (K * V)) : option V :=
  match d with
  | [] => None
  | (k', v) :: d' => if decide (k = k') then Some v else dict_lookup k d'
  end.

(** [d[k]] *)
Definition dict_getitem (k : K) (d : list (K * V)) : res V :=
  match dict_lookup k d with
  | Some v => Ok v
  | None => Raise KeyError
  end.

(** [d[k] = v]: an existing key keeps its position, a new key goes last. *)
Fixpoint dict_setitem (k : K) (v : V) (d : list (K * V)) : list (K * V) :=
  match d with
  | [] => [(k, v)]
  | (k', v') :: d' =>
      if decide (k = k') then (k, v) :: d' else (k', v') :: dict_setitem k v d'
  end.

(** A dict display [{k1: v1, k2: v2, ...}] inserts its items in order. *)
Definition mkdict (items : list (K * V)) : list (K * V) :=
  foldl (λ d kv, dict_setitem kv.1 kv.2 d) [] items.

(** [d.items()] and [d.keys()] *)
Definition dict_items (d : list (K * V)) : list (K * V) := d.
Definition dict_keys (d : list (K * V)) : list K := d.*1.
End dict.

(** [d[k1][k2] = v]: the inner dictionary is fetched (KeyError when [k1] is
    absent) and updated in place. *)
Definition dict_setitem2 {K1 K2 V : Type} `{EqDecision K1, EqDecision K2}
    (k1 : K1) (k2 : K2) (v : V) (d : list (K1 * list (K2 * V)))
    : res (list (K1 * list (K2 * V))) :=
  inner ← dict_getitem k1 d;
  Ok (dict_setitem k1 (dict_setitem k2 v inner) d).

(** ** numpy arrays of float64 *)

(** Conversion of a Python int to float64 (exact below 2^53). *)
Definition float_of_int (z : Z) : float :=
  if z <? 0 then PrimFloat.opp (PrimFloat.of_uint63 (Uint63.of_Z (- z)))
  else PrimFloat.of_uint63 (Uint63.of_Z z).

Definition np_zeros (n : nat) : list float := replicate n 0%float.
Definition np_zeros2 (r c : nat) : list (list float) := replicate r (np_zeros c).
Definition np_zeros3 (a b c : nat) : list (list (list float)) :=
  replicate a (np_zeros2 b c).

(** numpy index rule along an axis of length [n]: [0 <= i < n] is itself,
    [-n <= i < 0] counts from the end, anything else is an IndexError.
    This is the rule for indices that fit a signed 64-bit integer; an int
    outside that range makes numpy fail in another way, and the properties
    below that concern rejected indices are stated for indices that fit. *)
Definition norm_index (n : nat) (i : Z) : res nat :=
  if (0 <=? i) && (i <? Z.of_nat n) then Ok (Z.to_nat i)
  else if (- Z.of_nat n <=? i) && (i <? 0) then Ok (Z.to_nat (i + Z.of_nat n))
  else Raise IndexError.

Definition getitem1 {T : Type} (arr : list T) (i : Z) : res T :=
  k ← norm_index (length arr) i;
  match arr !! k with Some x => Ok x | None => Raise IndexError end.

Definition setitem1 {T : Type} (arr : list T) (i : Z) (v : T) : res (list T) :=
  k ← norm_index (length arr) i; Ok (<[k := v]> arr).

Definition getitem2 {T : Type} (arr : list (list T)) (i j : Z) : res T :=
  row ← getitem1 arr i; getitem1 row j.

Definition setitem2 {T : Type} (arr : list (list T)) (i j : Z) (v : T)
    : res (list (list T)) :=
  row ← getitem1 arr i; row' ← setitem1 row j v; setitem1 arr i row'.

Definition getitem3 {T : Type} (arr : list (list (list T))) (i j k : Z) : res T :=
  plane ← getitem1 arr i; getitem2 plane j k.

Definition setitem3 {T : Type} (arr : list (list (list T))) (i j k : Z) (v : T)
    : res (list (list (list T))) :=
  plane ← getitem1 arr i; plane' ← setitem2 plane j k v; setitem1 arr i plane'.

(** The shape of a 3-d array, and the entry at a position inside it. *)
Definition shape3 {T : Type} (a b c : nat) (arr : list (list (list T))) : Prop :=
  length arr = a ∧
  Forall (λ plane, length plane = b ∧ Forall (λ row, length row = c) plane) arr.

Definition lookup3 {T : Type} (arr : list (list (list T))) (i j k : nat) : option T :=
  plane ← arr !! i; row ← plane !! j; row !! k.

(** [arr.sum()] of a 1-d float64 array, as binary64 additions from the first
    entry to the last. numpy may add in another order; the sums proved below
    are also shown not to depend on it. *)
Definition np_sum (l : list float) : float := foldl PrimFloat.add 0%float l.

(** A float64 vector with one entry 1 and all other entries 0. *)
Inductive one_hot : list float → Prop :=
  | one_hot_here l : Forall (λ x, x = 0%float) l → one_hot (1%float :: l)
  | one_hot_later l : one_hot l → one_hot (0%float :: l).

(** [np.eye(N)] as numpy builds it: an N x N block of zeros whose flat view
    gets a one at every (N+1)-th position, starting at position 0. *)
Definition set_strided (start step : nat) (v : float) (flat : list float) : list float :=
  imap (λ i x, if (start <=? i)%nat && ((i - start) `mod` step =? 0)%nat then v else x) flat.

Definition reshape2 (r c : nat) (flat : list float) : list (list float) :=
  (λ i, take c (drop (i * c) flat)) <$> seq 0 r.

Definition np_eye (N : nat) : list (list float) :=
  reshape2 N N (set_strided 0 (N + 1) 1%float (np_zeros (N * N))).

(** ** The tutorial notebook *)

Module Tutorial.

Definition state_mapping : list (Z * (Z * Z)) :=
  mkdict [(0, (0, 0)); (1, (1, 0)); (2, (2, 0));
          (3, (0, 1)); (4, (1, 1)); (5, (2, 1));
          (6, (0, 2)); (7, (1, 2)); (8, (2, 2))].

(** [grid = np.zeros((3,3))], then [grid[y,x] = linear_index] for every item
    of [state_mapping]. *)
Definition grid : res (list (list float)) :=
  for_in (dict_items state_mapping)
    (λ item grid,
       let '(linear_index, xy_coordinates) := item in
       let '(x, y) := xy_coordinates in
       setitem2 grid y x (float_of_int linear_index))
    (np_zeros2 3 3).

Definition A : list (list float) := np_eye 9.

Definition dim : Z := 3.

Definition actions : list (string * Z) :=
  mkdict [("UP"%string, 0); ("RIGHT"%string, 1); ("DOWN"%string, 2);
          ("LEFT"%string, 3); ("STAY"%string, 4)].

(** The values stored in the inner dictionaries of [P]: the placeholder
    [[]] of the dict comprehension, later overwritten by an int. *)
Inductive pyval :=
  | PyList (l : list Z)
  | PyInt (z : Z).

(** [int(v)] *)
Definition py_int (v : pyval) : res Z :=
  match v with
  | PyInt z => Ok z
  | PyList _ => Raise TypeError
  end.

Definition P_body (item : Z * (Z * Z)) (P : list (Z * list (Z * pyval)))
    : res (list (Z * list (Z * pyval))) :=
  let '(state_index, xy_coordinates) := item in
  let P := dict_setitem state_index
             (mkdict ((λ a, (a, PyList [])) <$> range (length actions))) P in
  let '(x, y) := xy_coordinates in
  up ← dict_getitem "UP"%string actions;
  P ← dict_setitem2 state_index up
        (PyInt (if y =? 0 then state_index else state_index - dim)) P;
  right ← dict_getitem "RIGHT"%string actions;
  P ← dict_setitem2 state_index right
        (PyInt (if x =? dim - 1 then state_index else state_index + 1)) P;
  down ← dict_getitem "DOWN"%string actions;
  P ← dict_setitem2 state_index down
        (PyInt (if y =? dim - 1 then state_index else state_index + dim)) P;
  left ← dict_getitem "LEFT"%string actions;
  P ← dict_setitem2 state_index left
        (PyInt (if x =? 0 then state_index else state_index - 1)) P;
  stay ← dict_getitem "STAY"%string actions;
  dict_setitem2 state_index stay (PyInt state_index) P.

Definition P : res (list (Z * list (Z * pyval))) :=
  for_in (dict_items state_mapping) P_body [].

(** [P[s][a]] *)
Definition P_get (P : list (Z * list (Z * pyval))) (s a : Z) : res pyval :=
  inner ← dict_getitem s P; dict_getitem a inner.

Definition num_states : nat := 9.

(** The double loop that fills [B] from a next-state dictionary. *)
Definition B_of (P : list (Z * list (Z * pyval))) : res (list (list (list float))) :=
  for_in (range num_states)
    (λ s B,
       for_in (range (length actions))
         (λ a B,
            v ← P_get P s a;
            ns ← py_int v;
            setitem3 B ns s a 1%float)
         B)
    (np_zeros3 num_states num_states (length actions)).

Definition B : res (list (list (list float))) := p ← P; B_of p.

(** [B[:, s, a]]: the distribution over next states; [B[ns, :, a]]: one row
    of the slice [B[:, :, a]]. *)
Definition B_column (B : list (list (list float))) (s a : Z) : res (list float) :=
  collect (λ ns, getitem3 B ns s a) (range (length B)).

Definition B_row (B : list (list (list float))) (ns a : Z) : res (list float) :=
  plane ← getitem1 B ns;
  collect (λ s, getitem2 plane s a) (range (length plane)).

(** Columns and rows of a 2-d array. *)
Definition column2 (M : list (list float)) (j : Z) : res (list float) :=
  collect (λ i, getitem2 M i j) (range (length M)).

Definition row2 (M : list (list float)) (i : Z) : res (list float) :=
  getitem1 M i.

(** *** Quantities the properties are stated on *)

(** [P[s][a]] read as an int, and the move named [name] taken from [s]. *)
Definition next_state (s a : Z) : res Z :=
  p ← P; v ← P_get p s a; py_int v.

Definition move (s : Z) (name : string) : res Z :=
  a ← dict_getitem name actions; next_state s a.

(** Entry, column sum and row sum of the constructed [B]. *)
Definition B_entry (ns s a : Z) : res float := Bv ← B; getitem3 Bv ns s a.
Definition B_column_sum (s a : Z) : res float := Bv ← B; np_sum <$> B_column Bv s a.
Definition B_row_sum (ns a : Z) : res float := Bv ← B; np_sum <$> B_row Bv ns a.

Definition B_column_of (s a : Z) : res (list float) := Bv ← B; B_column Bv s a.

Definition is_action (name : string) (a : Z) : bool :=
  bool_decide (dict_lookup name actions = Some a).

(** The action [a] taken in state [s] would leave the grid. *)
Definition moves_off_grid (s a : Z) : bool :=
  match dict_lookup s state_mapping with
  | Some (x, y) =>
      is_action "UP" a && (y =? 0) || is_action "RIGHT" a && (x =? 2)
      || is_action "DOWN" a && (y =? 2) || is_action "LEFT" a && (x =? 0)
  | None => false
  end.

(** The number of states that reach a state whose coordinate along the
    axis of a move is [c]: two on the wall the move pushes against, none on
    the opposite wall, one elsewhere. *)
Definition wall_count (c pushed opposite : Z) : float :=
  if c =? pushed then 2%float else if c =? opposite then 0%float else 1%float.

Definition expected_row_sum (ns a : Z) : float :=
  match dict_lookup ns state_mapping with
  | Some (x, y) =>
      if is_action "UP" a then wall_count y 0 2
      else if is_action "RIGHT" a then wall_count x 2 0
      else if is_action "DOWN" a then wall_count y 2 0
      else if is_action "LEFT" a then wall_count x 0 2
      else 1%float
  | None => 0%float
  end.

(** Row and column sums of the likelihood matrix. *)
Definition A_row_sum (i : Z) : res float := np_sum <$> row2 A i.
Definition A_column_sum (j : Z) : res float := np_sum <$> column2 A j.

(** The reading of "every row and every column sums to 1" for the matrix
    [A] and all five slices of [B]. *)
Definition rows_and_columns_sum_to_one : Prop :=
  (∀ i, 0 ≤ i < 9 → A_row_sum i = Ok 1%float ∧ A_column_sum i = Ok 1%float) ∧
  (∀ a i, 0 ≤ a < 5 → 0 ≤ i < 9 →
     B_row_sum i a = Ok 1%float ∧ B_column_sum i a = Ok 1%float).

(** The state of [B] after the construction loop has visited the pairs in
    [visited], for a table whose entry for (s, a) is the int [nsf s a]: a
    one at the next state of every visited pair (counted from the end when
    negative), zeros elsewhere. *)
Definition B_filled (nsf : Z → Z → Z) (visited : list (Z * Z))
    (Bv : list (list (list float))) : Prop :=
  shape3 9 9 5 Bv ∧
  ∀ ns s a : nat, (ns < 9)%nat → (s < 9)%nat → (a < 5)%nat →
    lookup3 Bv ns s a =
      Some (if bool_decide ((Z.of_nat s, Z.of_nat a) ∈ visited
                            ∧ Z.of_nat ns = nsf (Z.of_nat s) (Z.of_nat a) `mod` 9)
            then 1%float else 0%float).

(** The pairs (s, a) in the order in which the double loop visits them,
    and the int stored in a table at (s, a), if there is one. *)
Definition B_loop_order : list (Z * Z) :=
  s ← range num_states; a ← range (length actions); [(s, a)].

Definition table_entry (p : list (Z * list (Z * pyval))) (s a : Z) : Z :=
  match P_get p s a with
  | Ok (PyInt ns) => ns
  | _ => 0
  end.

(** *** The plots of the tutorial *)

(** [M.shape[1]] of a 2-d array. *)
Definition ncols {T : Type} (M : list (list T)) : nat :=
  match M with
  | row :: _ => length row
  | [] => 0%nat
  end.

(** [labels = [state_mapping[i] for i in range(A.shape[1])]] *)
Definition labels : res (list (Z * Z)) :=
  collect (λ i, dict_getitem i state_mapping) (range (ncols A)).

(** [B[:, :, a]] *)
Definition B_slice (B : list (list (list float))) (a : Z) : res (list (list float)) :=
  collect (λ plane, collect (λ row, getitem1 row a) plane) B.

(** The grid of axes made by [plt.subplots(r, c)], each axis named by its
    row and column. *)
Definition subplots (r c : nat) : list (list (Z * Z)) :=
  (λ i, (λ j, (i, j)) <$> range c) <$> range r.

(** One call of [sns.heatmap] followed by [set_title]. *)
Record heatmap := {
  hm_data : list (list float);
  hm_ax : Z * Z;
  hm_ticklabels : list (Z * Z);
  hm_title : string
}.

(** The cell that plots the slices of [B]: a counter runs over the axes
    row by row, the inner loop breaks once five slices are drawn, and the
    axis at flat position 5 is deleted afterwards. The result is the list
    of heatmaps drawn and the deleted axis. *)
Definition plot_B (B : list (list (list float))) (labels : list (Z * Z))
    : res (list heatmap * (Z * Z)) :=
  let axes := subplots 2 3 in
  let a := dict_keys actions in
  st ← for_in (range (Z.to_nat (dim - 1)))
         (λ i st,
            for_in_break (range (Z.to_nat dim))
              (λ j st,
                 let '(count, drawn) := st in
                 if 5 <=? count then Ok (Break (count, drawn))
                 else
                   data ← B_slice B count;
                   ax ← getitem2 axes i j;
                   title ← getitem1 a count;
                   Ok (Continue
                         (count + 1,
                          drawn ++ [{| hm_data := data; hm_ax := ax;
                                       hm_ticklabels := labels; hm_title := title |}])))
              st)
         (0, []);
  deleted ← getitem1 (concat axes) 5;
  Ok (st.2, deleted).

(** The Manhattan distance between the grid positions of two states. *)
Definition manhattan (s t : Z) : res Z :=
  p ← dict_getitem s state_mapping;
  q ← dict_getitem t state_mapping;
  Ok (Z.abs (p.1 - q.1) + Z.abs (p.2 - q.2)).

(** The state reached from [s] by taking the actions [acts] one after the
    other, each step read off [P]. *)
Definition run (s : Z) (acts : list Z) : res Z :=
  for_in acts (λ a s, next_state s a) s.

End Tutorial.

(** ** The A-matrix demo notebook *)

(** A labelled table (pandas DataFrame with a MultiIndex on both axes): the
    row labels, the column labels and the float64 cells, row by row. *)
Record DataFrame := {
  index : list (list string);
  columns : list (list string);
  values : list (list float)
}.

(** The right-hand side of a [.loc] assignment: a scalar or a 2-d array. *)
Inductive locval :=
  | Scalar (v : float)
  | Block (m : list (list float)).

(** A [.loc] key selects the labels it is a prefix of: a full tuple selects
    one label, a first-level name selects the whole group. *)
Fixpoint key_matches (key label : list string) : bool :=
  match key, label with
  | [], _ => true
  | k :: key', l :: label' => bool_decide (k = l) && key_matches key' label'
  | _ :: _, [] => false
  end.

Definition positions (key : list string) (labels : list (list string)) : list Z :=
  (λ il, Z.of_nat il.1) <$> filter (λ il, key_matches key il.2 = true) (imap pair labels).

(** [df.loc[rk, ck]]: the selected block; an unknown label is a KeyError. *)
Definition loc_getitem (rk ck : list string) (df : DataFrame) : res (list (list float)) :=
  let rows := positions rk (index df) in
  let cols := positions ck (columns df) in
  if bool_decide (rows = []) || bool_decide (cols = []) then Raise KeyError
  else collect (λ r, collect (λ c, getitem2 (values df) r c) cols) rows.

(** [df.loc[rk, ck] = v]: a scalar is stored in every selected cell, an
    array must have the shape of the selection (ValueError otherwise) and
    is stored cell by cell. The cells are stored as given. *)
Definition loc_setitem (rk ck : list string) (v : locval) (df : DataFrame) : res DataFrame :=
  let rows := positions rk (index df) in
  let cols := positions ck (columns df) in
  if bool_decide (rows = []) || bool_decide (cols = []) then Raise KeyError
  else
    cells ←
      match v with
      | Scalar x => Ok ((λ r, (λ c, (r, c, x)) <$> cols) <$> rows)
      | Block m =>
          if bool_decide (length m = length rows)
             && forallb (λ row, bool_decide (length row = length cols)) m
          then Ok ((λ rm, (λ cx, (rm.1, cx.1, cx.2)) <$> zip cols rm.2) <$> zip rows m)
          else Raise ValueError
      end;
    vals ← for_in (concat cells)
              (λ rcx vals, let '(r, c, x) := rcx in setitem2 vals r c x)
              (values df);
    Ok {| index := index df; columns := columns df; values := vals |}.

(** [np.array(l).reshape(-1, 1)] and [np.tile(m, reps)] for 2-d [m]. *)
Definition reshape_column (l : list float) : list (list float) := (λ x, [x]) <$> l.

Definition np_tile (m : list (list float)) (reps : nat * nat) : list (list float) :=
  concat (replicate reps.1 ((λ row, concat (replicate reps.2 row)) <$> m)).




Module Demo.
Local Open Scope string_scope.

Record labels := {
  observations : list (string * list string);
  states : list (string * list string)
}.

Definition model_labels : labels := {|
  observations :=
    mkdict [("grass_observation", ["wet"; "dry"]);
            ("weather_observation", ["clear"; "rainy"; "cloudy"])];
  states :=
    mkdict [("did_it_rain", ["rained"; "did_not_rain"]);
            ("was_sprinkler_on", ["on"; "off"])]
|}.

(** Modelled from the spec: [utils.get_model_dimensions_from_labels] is
    defined in pymdp/utils.py, outside the notebooks. It returns the number
    of outcomes of each modality, the number of modalities, the number of
    levels of each hidden-state factor and the number of factors. *)
Definition get_model_dimensions_from_labels (ml : labels)
    : list nat * nat * list nat * nat :=
  ((λ kv, length kv.2) <$> dict_items (observations ml),
   length (observations ml),
   (λ kv, length kv.2) <$> dict_items (states ml),
   length (states ml)).

Definition num_obs : list nat := (get_model_dimensions_from_labels model_labels).1.1.1.
Definition n_states : list nat := (get_model_dimensions_from_labels model_labels).1.2.
Definition n_factors : nat := (get_model_dimensions_from_labels model_labels).2.

(** The two flags of the notebook. With both set, the table is read from a
    spreadsheet prepared beforehand and neither [to_excel] nor the Option 2
    cell runs. *)
Definition read_from_excel : bool := true.
Definition pre_specified_excel : bool := true.

(** All tuples that take one level from each list, the last list varying
    fastest (the order of [itertools.product]). *)
Fixpoint product (levels : list (list string)) : list (list string) :=
  match levels with
  | [] => [[]]
  | l :: rest => x ← l; (λ t, x :: t) <$> product rest
  end.

(** Modelled from the spec: [create_A_matrix_stub] is defined in
    pymdp/utils.py, outside the notebooks. It returns the empty likelihood
    table: one row per (modality, outcome) pair, one column per hidden-state
    configuration, every cell 0. *)
Definition create_A_matrix_stub (ml : labels) : DataFrame := {|
  index := kv ← dict_items (observations ml); (λ o, [kv.1; o]) <$> kv.2;
  columns := product (snd <$> dict_items (states ml));
  values :=
    np_zeros2 (sum_list ((λ kv, length kv.2) <$> dict_items (observations ml)))
              (length (product (snd <$> dict_items (states ml))))
|}.

(** Option 2 of the notebook: the table is filled in by hand, guarded by
    [if not read_from_excel]. *)
Definition fill_option2 (read_from_excel : bool) (A_stub : DataFrame) : res DataFrame :=
  if negb read_from_excel then
    A_stub ← loc_setitem ["grass_observation"; "wet"] ["rained"; "on"] (Scalar 1.0) A_stub;
    A_stub ← loc_setitem ["grass_observation"; "wet"] ["rained"; "off"] (Scalar 0.7) A_stub;
    A_stub ← loc_setitem ["grass_observation"; "dry"] ["rained"; "off"] (Scalar 0.3) A_stub;
    A_stub ← loc_setitem ["grass_observation"; "wet"] ["did_not_rain"; "on"] (Scalar 0.5) A_stub;
    A_stub ← loc_setitem ["grass_observation"; "dry"] ["did_not_rain"; "on"] (Scalar 0.5) A_stub;
    A_stub ← loc_setitem ["grass_observation"; "dry"] ["did_not_rain"; "off"] (Scalar 1.0) A_stub;
    A_stub ← loc_setitem ["weather_observation"] ["rained"]
               (Block (np_tile (reshape_column [0.1; 0.65; 0.25]%float) (1, 2)%nat)) A_stub;
    loc_setitem ["weather_observation"] ["did_not_rain"]
      (Block (np_tile (reshape_column [0.9; 0.05; 0.05]%float) (1, 2)%nat)) A_stub
  else Ok A_stub.

(** The entries of one state column over the outcomes of one modality,
    [A_stub.loc[modality, config]], from the first outcome to the last. *)
Definition modality_column (df : DataFrame) (modality : string) (config : list string)
    : res (list float) :=
  block ← loc_getitem [modality] config df; Ok (concat block).

(** Modelled from the spec: [utils.obj_array_zeros] is defined in
    pymdp/utils.py, outside the notebooks. It returns one array of zeros per
    entry of the shape list, of that length. *)
Definition obj_array_zeros (shape_list : list nat) : list (list float) :=
  np_zeros <$> shape_list.

(** The observation cell: [observation[g][obs_idx[g]] = 1.0] for every
    modality, printing the label of the sampled outcome. The state of the
    loop is the observation and the printed lines. *)
Definition build_observation (obs_idx : list Z) : res (list (list float) * list string) :=
  for_in (imap (λ g name, (Z.of_nat g, name)) (dict_keys (observations model_labels)))
    (λ gm st,
       let '(g, modality_name) := gm in
       let '(observation, out) := st in
       i ← getitem1 obs_idx g;
       observation ← setitem2 observation g i 1.0%float;
       names ← dict_getitem modality_name (observations model_labels);
       name ← getitem1 names i;
       Ok (observation, (out ++ [modality_name +:+ ": " +:+ name])%list))
    (obj_array_zeros num_obs, []).

(** *** Quantities the properties are stated on *)

(** The table after the hand-filling of Option 2, and one state column of
    it over the outcomes of one modality. *)
Definition A_stub_option2 : res DataFrame :=
  fill_option2 false (create_A_matrix_stub model_labels).

Definition option2_column (modality : string) (config : list string) : res (list float) :=
  df ← A_stub_option2; modality_column df modality config.



(** A table with the labels of the stub and arbitrary contents: the cell
    in row [r] and column [c] holds [cell r c]. *)
Definition table_of (cell : nat → nat → float) : DataFrame :=
  let stub := create_A_matrix_stub model_labels in
  {| index := index stub; columns := columns stub;
     values := (λ r, cell r <$> seq 0 (length (columns stub)))
                 <$> seq 0 (length (index stub)) |}.




End Demo.

(** * Properties *)

(** ** Generic facts about the runtime model *)

Lemma float_one_ne_zero : 1%float ≠ 0%float.
Proof. intros H. discriminate (f_equal (λ f, PrimFloat.eqb f 1) H). Qed.

Lemma Ok_inj {T : Type} (a b : T) : Ok a = Ok b → a = b.
Proof. by intros [= ->]. Qed.

(** A property of every index below [m] is checked on [range m]. *)
Lemma range_cases (m : Z) (Q : Z → Prop) :
  Forall Q (range (Z.to_nat m)) → ∀ z, 0 ≤ z < m → Q z.
Proof.
  intros HQ z Hz. rewrite Forall_forall in HQ. apply HQ.
  unfold range. apply list_elem_of_fmap. exists (Z.to_nat z).
  split; [lia | apply elem_of_seq; lia].
Qed.

Ltac each_index :=
  lazymatch goal with
  | |- ∀ z : Z, 0 ≤ z < ?m → @?Q z => apply (range_cases m Q)
  end;
  vm_compute range;
  repeat (apply List.Forall_cons; [cbv beta|]); [..|apply List.Forall_nil].

Lemma dict_lookup_elem_of {K V : Type} `{EqDecision K} (k : K) (v : V) d :
  dict_lookup k d = Some v → (k, v) ∈ d.
Proof.
  induction d as [|[k' v'] d IH]; simpl; [done|].
  destruct (decide (k = k')) as [->|_].
  - intros [= ->]. left.
  - intros H. right. by apply IH.
Qed.

Lemma dict_getitem_elem_of {K V : Type} `{EqDecision K} (k : K) (v : V) d :
  dict_getitem k d = Ok v → (k, v) ∈ d.
Proof.
  unfold dict_getitem. destruct (dict_lookup k d) eqn:E; [|done].
  intros [= ->]. by apply dict_lookup_elem_of.
Qed.

(** *** One-hot vectors *)

Lemma foldl_add_zeros (acc : float) (l : list float) :
  (acc + 0 = acc)%float → Forall (λ x, x = 0%float) l →
  foldl PrimFloat.add acc l = acc.
Proof.
  intros Hacc Hl. induction Hl as [|x l -> _ IH]; simpl; [done|].
  by rewrite Hacc.
Qed.

Lemma np_sum_one_hot (l : list float) : one_hot l → np_sum l = 1%float.
Proof.
  unfold np_sum. induction 1 as [l Hl|l _ IH]; simpl.
  - change (0 + 1)%float with 1%float. by apply foldl_add_zeros.
  - change (0 + 0)%float with 0%float. exact IH.
Qed.

Lemma one_hot_Permutation (l l' : list float) :
  l ≡ₚ l' → one_hot l → one_hot l'.
Proof.
  induction 1 as [|x l l' Hp IH|x y l|l1 l2 l3 _ IH1 _ IH2]; intros Hl.
  - done.
  - inversion Hl as [k Hk|k Hk]; subst.
    + apply one_hot_here. by rewrite <-Hp.
    + apply one_hot_later. by apply IH.
  - inversion Hl as [k Hk|k Hk]; subst.
    + inversion Hk as [|? ? -> Hk']; subst.
      by apply one_hot_later, one_hot_here.
    + inversion Hk as [k' Hk'|k' Hk']; subst.
      * apply one_hot_here. by constructor.
      * by do 2 apply one_hot_later.
  - by apply IH2, IH1.
Qed.

(** The entries of a one-hot vector sum to 1.0 in whatever order the
    binary64 additions are carried out. *)
Lemma one_hot_sum_any_order (l : list float) :
  one_hot l → ∀ l', l ≡ₚ l' → np_sum l' = 1%float.
Proof. intros Hl l' Hp. by apply np_sum_one_hot, (one_hot_Permutation l). Qed.

(** *** Indexing in range *)

Lemma norm_index_in_range (n : nat) (i : Z) :
  0 ≤ i < Z.of_nat n → norm_index n i = Ok (Z.to_nat i).
Proof.
  intros Hi. unfold norm_index.
  destruct (Z.leb_spec 0 i); [|lia]. destruct (Z.ltb_spec i (Z.of_nat n)); [done|lia].
Qed.

Lemma getitem1_in_range {T : Type} (arr : list T) (i : Z) (x : T) :
  0 ≤ i → arr !! Z.to_nat i = Some x → getitem1 arr i = Ok x.
Proof.
  intros Hi Hx. unfold getitem1.
  rewrite norm_index_in_range; [simpl; by rewrite Hx|].
  apply lookup_lt_Some in Hx. lia.
Qed.

(** *** [np.eye] is the identity matrix, for every size *)

Lemma diagonal_position (n k l : nat) :
  (k < n)%nat → (l < n)%nat →
  ((k * n + l) `mod` (n + 1) = 0)%nat ↔ k = l.
Proof.
  intros Hk Hl. split.
  - intros Hmod. destruct (Nat.lt_trichotomy k l) as [Hlt|[Heq|Hgt]]; [|done|].
    + assert (l - k = (k * n + l) `mod` (n + 1))%nat as Hr
        by (apply (Nat.mod_unique _ _ k); [lia | nia]).
      lia.
    + assert (n + 1 + l - k = (k * n + l) `mod` (n + 1))%nat as Hr
        by (apply (Nat.mod_unique _ _ (k - 1)); [lia | nia]).
      lia.
  - intros <-. symmetry. apply (Nat.mod_unique _ _ k); [lia | nia].
Qed.

Lemma reshape2_lookup (r c : nat) (flat : list float) (k l : nat) :
  (k < r)%nat → (l < c)%nat →
  reshape2 r c flat !! k ≫= (.!! l) = flat !! (k * c + l)%nat.
Proof.
  intros Hk Hl. unfold reshape2.
  rewrite list_lookup_fmap, lookup_seq_lt by done. simpl.
  rewrite lookup_take_lt, lookup_drop by done. done.
Qed.

Lemma np_eye_lookup (n k l : nat) :
  (k < n)%nat → (l < n)%nat →
  np_eye n !! k ≫= (.!! l) = Some (if bool_decide (k = l) then 1 else 0)%float.
Proof.
  intros Hk Hl. unfold np_eye. rewrite reshape2_lookup by done.
  unfold set_strided, np_zeros. rewrite list_lookup_imap.
  rewrite lookup_replicate_2 by nia. simpl. f_equal.
  rewrite Nat.sub_0_r.
  destruct (Nat.eqb_spec ((k * n + l) `mod` (n + 1)) 0) as [Hd|Hd];
    rewrite diagonal_position in Hd by done;
    by rewrite ?(bool_decide_eq_true_2 _ Hd), ?(bool_decide_eq_false_2 _ Hd).
Qed.

Lemma np_eye_entry (n : nat) (i j : Z) :
  0 ≤ i < Z.of_nat n → 0 ≤ j < Z.of_nat n →
  getitem2 (np_eye n) i j = Ok (if bool_decide (i = j) then 1 else 0)%float.
Proof.
  intros Hi Hj.
  assert (np_eye n !! Z.to_nat i ≫= (.!! Z.to_nat j)
          = Some (if bool_decide (Z.to_nat i = Z.to_nat j) then 1 else 0)%float) as Hl
    by (apply np_eye_lookup; lia).
  destruct (np_eye n !! Z.to_nat i) as [row|] eqn:Hrow; [|done].
  simpl in Hl. unfold getitem2.
  rewrite (getitem1_in_range _ _ row) by (done || lia). simpl.
  rewrite (getitem1_in_range row j _ ltac:(lia) Hl). f_equal.
  destruct (decide (i = j)) as [->|Hne].
  - by rewrite !bool_decide_eq_true_2.
  - rewrite !bool_decide_eq_false_2; [done..|lia].
Qed.

Module TutorialFacts.
Import Tutorial.

Lemma B_column_one_hot s a :
  0 ≤ s < 9 → 0 ≤ a < 5 →
  ∃ col, B_column_of s a = Ok col ∧ length col = 9%nat ∧ one_hot col.
Proof.
  intros Hs Ha. revert a Ha. revert s Hs.
  each_index; each_index;
    (eexists; split; [vm_compute; reflexivity|]; split; [reflexivity|]);
    repeat constructor.
Qed.

Lemma B_column_sum_one s a :
  0 ≤ s < 9 → 0 ≤ a < 5 → B_column_sum s a = Ok 1%float.
Proof.
  intros Hs Ha. revert a Ha. revert s Hs.
  each_index; each_index; vm_compute; reflexivity.
Qed.

Lemma B_entry_indicator s a :
  0 ≤ s < 9 → 0 ≤ a < 5 →
  ∃ ns, next_state s a = Ok ns ∧ 0 ≤ ns < 9 ∧
    ∀ ns', 0 ≤ ns' < 9 →
      B_entry ns' s a = Ok (if bool_decide (ns' = ns) then 1 else 0)%float.
Proof.
  intros Hs Ha. revert a Ha. revert s Hs.
  each_index; each_index;
    (eexists; split; [vm_compute; reflexivity | split; [lia|]]);
    each_index; vm_compute; reflexivity.
Qed.

(** *** The state mapping *)

Lemma state_mapping_lookup x y :
  0 ≤ x < 3 → 0 ≤ y < 3 → dict_getitem (3 * y + x) state_mapping = Ok (x, y).
Proof.
  intros Hx Hy. revert y Hy. revert x Hx.
  each_index; each_index; vm_compute; reflexivity.
Qed.

Ltac state_cases H :=
  apply dict_getitem_elem_of in H; vm_compute state_mapping in H;
  repeat (apply elem_of_cons in H as [H|H]; [injection H as -> -> ->|]);
  [..|by apply elem_of_nil in H].

Lemma state_mapping_inv i x y :
  dict_getitem i state_mapping = Ok (x, y) →
  0 ≤ i < 9 ∧ 0 ≤ x < 3 ∧ 0 ≤ y < 3 ∧ i = 3 * y + x.
Proof. intros H. state_cases H; lia. Qed.

Lemma grid_entry x y :
  0 ≤ x < 3 → 0 ≤ y < 3 →
  (g ← grid; getitem2 g y x) = Ok (float_of_int (3 * y + x)).
Proof.
  intros Hx Hy. revert y Hy. revert x Hx.
  each_index; each_index; vm_compute; reflexivity.
Qed.

Lemma next_state_in_range s a :
  0 ≤ s < 9 → 0 ≤ a < 5 → ∃ ns, next_state s a = Ok ns ∧ 0 ≤ ns < 9.
Proof.
  intros Hs Ha. destruct (B_entry_indicator s a Hs Ha) as (ns & Hns & Hr & _).
  exists ns. split; assumption.
Qed.

Lemma off_grid_stays s a :
  0 ≤ s < 9 → 0 ≤ a < 5 → moves_off_grid s a = true → next_state s a = Ok s.
Proof.
  intros Hs Ha. revert a Ha. revert s Hs.
  each_index; each_index; vm_compute; first [reflexivity | discriminate].
Qed.

Lemma B_row_sum_expected ns a :
  0 ≤ ns < 9 → 0 ≤ a < 5 → B_row_sum ns a = Ok (expected_row_sum ns a).
Proof.
  intros Hs Ha. revert a Ha. revert ns Hs.
  each_index; each_index; vm_compute; reflexivity.
Qed.

Lemma A_sums_one i :
  0 ≤ i < 9 → A_row_sum i = Ok 1%float ∧ A_column_sum i = Ok 1%float.
Proof. revert i. each_index; split; vm_compute; reflexivity. Qed.

(** ** The claims about the tutorial *)

(** C1: for every prior state s in 0..8 and action a in 0..4, the column
    B[:, s, a] is a distribution over the nine next states: its entries sum
    to 1, in whatever order the float64 additions are carried out. *)
Theorem B_column_is_distribution (s a : Z) :
  0 ≤ s < 9 → 0 ≤ a < 5 →
  ∃ col, B_column_of s a = Ok col ∧ length col = 9%nat ∧
    np_sum col = 1%float ∧ ∀ col', col ≡ₚ col' → np_sum col' = 1%float.
Proof.
  intros Hs Ha. destruct (B_column_one_hot s a Hs Ha) as (col & Hcol & Hlen & Hoh).
  exists col. split; [exact Hcol|]. split; [exact Hlen|].
  split; [by apply np_sum_one_hot | by apply one_hot_sum_any_order].
Qed.

Lemma B_column_is_distribution_witness :
  ∃ col, B_column_of 4 1 = Ok col ∧ length col = 9%nat ∧
    np_sum col = 1%float ∧ ∀ col', col ≡ₚ col' → np_sum col' = 1%float.
Proof. apply (B_column_is_distribution 4 1); lia. Defined.

(** C2: the transitions are deterministic. For every state s and action a
    there is one next state ns, the one stored in P[s][a], with
    B[ns, s, a] = 1; all other entries of the column are 0, no other next
    state has entry 1, and when the action would leave the grid, ns = s. *)
Theorem B_deterministic (s a : Z) :
  0 ≤ s < 9 → 0 ≤ a < 5 →
  ∃ ns, next_state s a = Ok ns ∧ 0 ≤ ns < 9 ∧
    B_entry ns s a = Ok 1%float ∧
    (∀ ns', 0 ≤ ns' < 9 → ns' ≠ ns → B_entry ns' s a = Ok 0%float) ∧
    (∀ ns', 0 ≤ ns' < 9 → B_entry ns' s a = Ok 1%float → ns' = ns) ∧
    (moves_off_grid s a = true → ns = s).
Proof.
  intros Hs Ha. destruct (B_entry_indicator s a Hs Ha) as (ns & Hns & Hr & HB).
  exists ns. split; [done|]. split; [done|]. split; [|split; [|split]].
  - by rewrite HB, bool_decide_eq_true_2.
  - intros ns' Hr' Hne. by rewrite HB, bool_decide_eq_false_2.
  - intros ns' Hr' H1. rewrite HB in H1 by done.
    destruct (decide (ns' = ns)) as [|Hne]; [done|].
    rewrite bool_decide_eq_false_2 in H1 by done.
    apply Ok_inj in H1. by destruct float_one_ne_zero.
  - intros Hoff. apply off_grid_stays in Hoff; [|done..].
    rewrite Hoff in Hns. by apply Ok_inj in Hns.
Qed.

Lemma B_deterministic_witness :
  ∃ ns, next_state 2 1 = Ok ns ∧ 0 ≤ ns < 9 ∧
    B_entry ns 2 1 = Ok 1%float ∧
    (∀ ns', 0 ≤ ns' < 9 → ns' ≠ ns → B_entry ns' 2 1 = Ok 0%float) ∧
    (∀ ns', 0 ≤ ns' < 9 → B_entry ns' 2 1 = Ok 1%float → ns' = ns) ∧
    (moves_off_grid 2 1 = true → ns = 2).
Proof. apply (B_deterministic 2 1); lia. Defined.

(** C3, as stated, fails: in the slice of UP the row of state 0 sums to 2,
    because both state 0 (pushed against the top wall) and state 3 end in
    state 0. *)
Lemma rows_and_columns_counterexample :
  B_row_sum 0 0 = Ok 2%float ∧ ¬ rows_and_columns_sum_to_one.
Proof.
  split; [vm_compute; reflexivity|].
  intros [_ HB]. destruct (HB 0 0) as [Hrow _]; [lia..|].
  vm_compute in Hrow. apply Ok_inj in Hrow.
  discriminate (f_equal (λ f, PrimFloat.eqb f 1) Hrow).
Qed.

(** C3, amended: every row and every column of A sums to 1; in every slice
    B[:, :, a] every column sums to 1; the row of a state ns sums to 1 in
    the slice of STAY, and in the slice of a move to 2 when ns lies on the
    wall the move pushes against, to 0 on the opposite wall and to 1
    elsewhere. *)
Theorem stochastic_sums (a i : Z) :
  0 ≤ a < 5 → 0 ≤ i < 9 →
  A_row_sum i = Ok 1%float ∧ A_column_sum i = Ok 1%float ∧
  B_column_sum i a = Ok 1%float ∧
  B_row_sum i a = Ok (expected_row_sum i a) ∧
  (is_action "STAY" a = true → B_row_sum i a = Ok 1%float).
Proof.
  intros Ha Hi. destruct (A_sums_one i Hi) as [Hr Hc].
  split; [exact Hr|]. split; [exact Hc|]. clear Hr Hc.
  split; [apply B_column_sum_one; assumption|].
  split; [apply B_row_sum_expected; assumption|].
  rewrite B_row_sum_expected by assumption. revert i Hi. revert a Ha.
  each_index; each_index; vm_compute; first [reflexivity | discriminate].
Qed.

Lemma stochastic_sums_witness :
  A_row_sum 6 = Ok 1%float ∧ A_column_sum 6 = Ok 1%float ∧
  B_column_sum 6 2 = Ok 1%float ∧
  B_row_sum 6 2 = Ok (expected_row_sum 6 2) ∧
  (is_action "STAY" 2 = true → B_row_sum 6 2 = Ok 1%float).
Proof. apply (stochastic_sums 2 6); lia. Defined.

(** C4: the likelihood matrix of the tutorial is the 9x9 identity:
    A[i, j] = 1 if i = j and 0 otherwise. *)
Theorem A_is_identity (i j : Z) :
  0 ≤ i < 9 → 0 ≤ j < 9 →
  getitem2 A i j = Ok (if bool_decide (i = j) then 1 else 0)%float.
Proof. intros Hi Hj. unfold A. apply np_eye_entry; lia. Qed.

Lemma A_is_identity_witness :
  getitem2 A 3 3 = Ok 1%float ∧ getitem2 A 3 5 = Ok 0%float.
Proof.
  split; [apply (A_is_identity 3 3); lia | apply (A_is_identity 3 5); lia].
Defined.

(** C8: state_mapping is a bijection between the linear indices 0..8 and
    the coordinate pairs of {0,1,2} x {0,1,2}, with index = 3*y + x: its
    keys are exactly 0..8, the pair (x, y) is stored under 3*y + x, and the
    pair stored under s gives s back. Hence grid[y, x] = 3*y + x, and every
    next state stored in P is one of 0..8. *)
Theorem state_mapping_bijection (x y s a : Z) :
  0 ≤ x < 3 → 0 ≤ y < 3 → 0 ≤ s < 9 → 0 ≤ a < 5 →
  dict_keys state_mapping = range 9 ∧
  dict_getitem (3 * y + x) state_mapping = Ok (x, y) ∧
  (∃ x' y', dict_getitem s state_mapping = Ok (x', y') ∧
     0 ≤ x' < 3 ∧ 0 ≤ y' < 3 ∧ s = 3 * y' + x') ∧
  (∀ i x' y', dict_getitem i state_mapping = Ok (x', y') →
     0 ≤ i < 9 ∧ 0 ≤ x' < 3 ∧ 0 ≤ y' < 3 ∧ i = 3 * y' + x') ∧
  (g ← grid; getitem2 g y x) = Ok (float_of_int (3 * y + x)) ∧
  (∃ ns, next_state s a = Ok ns ∧ 0 ≤ ns < 9).
Proof.
  intros Hx Hy Hs Ha.
  split; [vm_compute; reflexivity|].
  split; [apply state_mapping_lookup; assumption|].
  split.
  { clear Ha. revert s Hs.
    each_index; (eexists _, _; split; [vm_compute; reflexivity | lia]). }
  split; [apply state_mapping_inv|].
  split; [apply grid_entry; assumption | apply next_state_in_range; assumption].
Qed.

Lemma state_mapping_bijection_witness :
  dict_getitem (3 * 1 + 2) state_mapping = Ok (2, 1) ∧
  (g ← grid; getitem2 g 1 2) = Ok (float_of_int (3 * 1 + 2)) ∧
  (∃ ns, next_state 5 1 = Ok ns ∧ 0 ≤ ns < 9).
Proof.
  destruct (state_mapping_bijection 2 1 5 1) as (_ & Hl & _ & _ & Hg & Hn);
    [lia..|].
  exact (conj Hl (conj Hg Hn)).
Defined.

(** C9: opposite moves undo each other away from the wall they push
    against. For a state s at (x, y): RIGHT then LEFT returns to s unless s
    is in the rightmost column, LEFT then RIGHT unless it is in the leftmost
    column, UP then DOWN unless it is in the top row, DOWN then UP unless it
    is in the bottom row. *)
Theorem opposite_moves_invert (s x y : Z) :
  dict_getitem s state_mapping = Ok (x, y) →
  (x ≠ 2 → (ns ← move s "RIGHT"; move ns "LEFT") = Ok s) ∧
  (x ≠ 0 → (ns ← move s "LEFT"; move ns "RIGHT") = Ok s) ∧
  (y ≠ 0 → (ns ← move s "UP"; move ns "DOWN") = Ok s) ∧
  (y ≠ 2 → (ns ← move s "DOWN"; move ns "UP") = Ok s).
Proof.
  intros H. state_cases H;
    (split; [|split; [|split]]);
    intros Hne; first [exfalso; lia | vm_compute; reflexivity].
Qed.

Lemma opposite_moves_invert_witness :
  (ns ← move 4 "RIGHT"; move ns "LEFT") = Ok 4 ∧
  (ns ← move 4 "LEFT"; move ns "RIGHT") = Ok 4 ∧
  (ns ← move 4 "UP"; move ns "DOWN") = Ok 4 ∧
  (ns ← move 4 "DOWN"; move ns "UP") = Ok 4.
Proof.
  destruct (opposite_moves_invert 4 1 1) as (H1 & H2 & H3 & H4);
    [vm_compute; reflexivity|].
  split; [apply H1; lia|]. split; [apply H2; lia|].
  split; [apply H3; lia | apply H4; lia].
Defined.

End TutorialFacts.

Module DemoFacts.
Import Demo.
Local Open Scope string_scope.

Ltac elem_cases H :=
  vm_compute in H;
  repeat (apply elem_of_cons in H as [->|H]);
  [..|by apply elem_of_nil in H].

(** With the flag as the notebook sets it, the Option 2 cell is skipped. *)
Remark fill_option2_skipped (A_stub : DataFrame) :
  fill_option2 read_from_excel A_stub = Ok A_stub.
Proof. reflexivity. Qed.

(** C5: in the table filled in by Option 2, for every hidden-state
    configuration and every observation modality, the entries of that
    column over the outcomes of the modality (one per outcome) sum to 1,
    in whatever order the float64 additions are carried out. *)
Theorem option2_columns_sum_to_one (modality : string) (config : list string) :
  modality ∈ dict_keys (observations model_labels) →
  config ∈ columns (create_A_matrix_stub model_labels) →
  ∃ col outcomes,
    option2_column modality config = Ok col ∧
    dict_getitem modality (observations model_labels) = Ok outcomes ∧
    length col = length outcomes ∧
    np_sum col = 1%float ∧ ∀ col', col ≡ₚ col' → np_sum col' = 1%float.
Proof.
  intros Hm Hc. elem_cases Hm; elem_cases Hc;
    (eexists _, _; split; [vm_compute; reflexivity|];
     split; [vm_compute; reflexivity|]; split; [reflexivity|];
     split; [reflexivity|]);
    intros col' Hp; apply permutations_Permutation in Hp;
    elem_cases Hp; reflexivity.
Qed.

Lemma option2_columns_sum_to_one_witness :
  ∃ col outcomes,
    option2_column "weather_observation" ["did_not_rain"; "off"] = Ok col ∧
    dict_getitem "weather_observation" (observations model_labels) = Ok outcomes ∧
    length col = length outcomes ∧
    np_sum col = 1%float ∧ ∀ col', col ≡ₚ col' → np_sum col' = 1%float.
Proof.
  apply (option2_columns_sum_to_one "weather_observation" ["did_not_rain"; "off"]);
    vm_compute; repeat first [left | right].
Defined.

(** A lookup that found 0 where 1 is claimed, or nothing at all. *)
Ltac lookup_absurd H :=
  vm_compute in H;
  first [discriminate H
        | injection H as H; destruct float_one_ne_zero; congruence].

Ltac one_hot_entries :=
  lazymatch goal with
  | |- ∀ k : nat, (k < _)%nat → _ =>
      let k := fresh "k" in let Hk := fresh "Hk" in
      intros k Hk;
      do 3 (destruct k as [|k]; [first [reflexivity | exfalso; lia]|]);
      exfalso; lia
  | |- ∀ k : nat, _ = Some _ → _ =>
      let k := fresh "k" in let Hk := fresh "Hk" in
      intros k Hk;
      do 3 (destruct k as [|k]; [first [reflexivity | lookup_absurd Hk]|]);
      discriminate
  | |- ∀ vec' : list float, _ ≡ₚ vec' → _ =>
      apply one_hot_sum_any_order; repeat constructor
  | |- _ => reflexivity
  end.






(** C10: for in-range observation indices, one per modality, the
    observation built by the demo is one-hot in every modality:
    [observation[g]] has as many entries as the modality has outcomes, the
    entry at [obs_idx[g]] is 1.0, it is the only entry equal to 1.0, all
    others are 0, and the entries sum to 1 (in whatever order they are
    added). *)
Theorem observation_one_hot (obs_idx : list Z) :
  Forall2 (λ i d, 0 ≤ i < Z.of_nat d) obs_idx num_obs →
  ∃ observation out,
    build_observation obs_idx = Ok (observation, out) ∧
    length observation = length (observations model_labels) ∧
    ∀ (g : nat) (d : nat) (i : Z),
      num_obs !! g = Some d → obs_idx !! g = Some i →
      ∃ vec, observation !! g = Some vec ∧ length vec = d ∧
        (∀ k, (k < d)%nat →
           vec !! k = Some (if bool_decide (Z.of_nat k = i) then 1%float else 0%float)) ∧
        (∀ k, vec !! k = Some 1%float → Z.of_nat k = i) ∧
        np_sum vec = 1%float ∧ ∀ vec', vec ≡ₚ vec' → np_sum vec' = 1%float.
Proof.
  intros H. vm_compute num_obs in H.
  apply Forall2_cons_inv_r in H as (i0 & l & H0 & H & ->).
  apply Forall2_cons_inv_r in H as (i1 & l' & H1 & H & ->).
  apply Forall2_nil_inv_r in H as ->.
  revert i1 H1. revert i0 H0.
  each_index; each_index;
    (eexists _, _; split; [vm_compute; reflexivity|]; split; [reflexivity|]);
    intros g d i Hd Hi; vm_compute in Hd;
    destruct g as [|[|g]]; simpl in Hi; try discriminate;
    injection Hd as <-; injection Hi as <-;
    (eexists; split; [reflexivity|]; split; [reflexivity|];
     split; [|split; [|split]]);
    one_hot_entries.
Qed.

Lemma observation_one_hot_witness :
  ∃ observation out,
    build_observation [0; 1] = Ok (observation, out) ∧
    length observation = length (observations model_labels) ∧
    ∀ (g : nat) (d : nat) (i : Z),
      num_obs !! g = Some d → [0; 1] !! g = Some i →
      ∃ vec, observation !! g = Some vec ∧ length vec = d ∧
        (∀ k, (k < d)%nat →
           vec !! k = Some (if bool_decide (Z.of_nat k = i) then 1%float else 0%float)) ∧
        (∀ k, vec !! k = Some 1%float → Z.of_nat k = i) ∧
        np_sum vec = 1%float ∧ ∀ vec', vec ≡ₚ vec' → np_sum vec' = 1%float.
Proof.
  apply (observation_one_hot [0; 1]).
  vm_compute num_obs. repeat constructor; lia.
Defined.

End DemoFacts.

(** * Further properties of the notebooks' code *)

(** ** Indexing with numpy's rule *)

Lemma norm_index_wrap (n : nat) (i : Z) :
  - Z.of_nat n ≤ i < Z.of_nat n →
  norm_index n i = Ok (Z.to_nat (i `mod` Z.of_nat n)).
Proof.
  intros Hi. unfold norm_index.
  destruct (Z.leb_spec 0 i); destruct (Z.ltb_spec i (Z.of_nat n)); simpl; try lia.
  - by rewrite Z.mod_small by lia.
  - destruct (Z.leb_spec (- Z.of_nat n) i); destruct (Z.ltb_spec i 0); simpl; try lia.
    do 2 f_equal. apply (Z.mod_unique _ _ (-1)); lia.
Qed.

Lemma norm_index_out_of_range (n : nat) (i : Z) :
  ¬ (- Z.of_nat n ≤ i < Z.of_nat n) → norm_index n i = Raise IndexError.
Proof.
  intros Hi. unfold norm_index.
  destruct (Z.leb_spec 0 i); destruct (Z.ltb_spec i (Z.of_nat n)); simpl; try lia;
    destruct (Z.leb_spec (- Z.of_nat n) i); destruct (Z.ltb_spec i 0); simpl;
    done || lia.
Qed.

Lemma wrap_lt (n : nat) (i : Z) :
  - Z.of_nat n ≤ i < Z.of_nat n → (Z.to_nat (i `mod` Z.of_nat n) < n)%nat.
Proof. intros Hi. pose proof (Z.mod_pos_bound i (Z.of_nat n)). lia. Qed.

Lemma setitem1_wrap {T : Type} (arr : list T) (i : Z) (v : T) :
  - Z.of_nat (length arr) ≤ i < Z.of_nat (length arr) →
  setitem1 arr i v = Ok (<[Z.to_nat (i `mod` Z.of_nat (length arr)) := v]> arr).
Proof. intros Hi. unfold setitem1. by rewrite norm_index_wrap. Qed.

Lemma getitem1_out_of_range {T : Type} (arr : list T) (i : Z) :
  ¬ (- Z.of_nat (length arr) ≤ i < Z.of_nat (length arr)) →
  getitem1 arr i = Raise IndexError.
Proof. intros Hi. unfold getitem1. by rewrite norm_index_out_of_range. Qed.

Lemma getitem3_lookup3 {T : Type} (arr : list (list (list T))) (i j k : Z) (x : T) :
  0 ≤ i → 0 ≤ j → 0 ≤ k →
  lookup3 arr (Z.to_nat i) (Z.to_nat j) (Z.to_nat k) = Some x →
  getitem3 arr i j k = Ok x.
Proof.
  intros Hi Hj Hk. unfold lookup3, getitem3, getitem2.
  destruct (arr !! Z.to_nat i) as [plane|] eqn:Hp; [simpl|done].
  destruct (plane !! Z.to_nat j) as [row|] eqn:Hr; [simpl|done]. intros Hx.
  rewrite (getitem1_in_range arr i plane) by assumption. simpl.
  rewrite (getitem1_in_range plane j row) by assumption. simpl.
  by apply getitem1_in_range.
Qed.

(** Storing one entry of a 3-d array: the first index may count from the
    end; the shape is kept and only that entry changes. *)
Lemma setitem3_spec {T : Type} (a b c : nat) (arr : list (list (list T)))
    (i j k : Z) (v : T) :
  shape3 a b c arr →
  - Z.of_nat a ≤ i < Z.of_nat a → 0 ≤ j < Z.of_nat b → 0 ≤ k < Z.of_nat c →
  ∃ arr', setitem3 arr i j k v = Ok arr' ∧ shape3 a b c arr' ∧
    ∀ i' j' k' : nat,
      lookup3 arr' i' j' k' =
        if bool_decide (i' = Z.to_nat (i `mod` Z.of_nat a) ∧ j' = Z.to_nat j ∧ k' = Z.to_nat k)
        then Some v else lookup3 arr i' j' k'.
Proof.
  intros [Hlen Hall] Hi Hj Hk. subst a.
  pose proof (wrap_lt _ i Hi) as Hlt. set (i0 := Z.to_nat (i `mod` Z.of_nat (length arr))) in *.
  destruct (lookup_lt_is_Some_2 arr i0 Hlt) as [plane Hplane].
  destruct (Forall_lookup_1 _ _ _ _ Hall Hplane) as [Hb Hrows].
  destruct (lookup_lt_is_Some_2 plane (Z.to_nat j)) as [row Hrow]; [lia|].
  pose proof (Forall_lookup_1 _ _ _ _ Hrows Hrow) as Hc. cbv beta in Hc.
  exists (<[i0 := <[Z.to_nat j := <[Z.to_nat k := v]> row]> plane]> arr).
  split; [|split].
  - unfold setitem3, setitem2, getitem1.
    rewrite norm_index_wrap by assumption. fold i0. simpl. rewrite Hplane. simpl.
    rewrite (norm_index_in_range (length plane) j) by lia. simpl. rewrite Hrow. simpl.
    unfold setitem1. rewrite (norm_index_in_range (length row) k) by lia. simpl.
    rewrite (norm_index_in_range (length plane) j) by lia. simpl.
    by rewrite norm_index_wrap by assumption.
  - split; [by rewrite length_insert|].
    apply Forall_insert; [assumption|]. split; [by rewrite length_insert|].
    apply Forall_insert; [assumption|]. by rewrite length_insert.
  - intros i' j' k'. unfold lookup3. case_bool_decide as Hd.
    + destruct Hd as (Hi' & Hj' & Hk'). subst i' j' k'.
      rewrite list_lookup_insert_eq by assumption. simpl.
      rewrite list_lookup_insert_eq by lia. simpl.
      apply list_lookup_insert_eq. lia.
    + destruct (decide (i' = i0)) as [->|Hi'].
      * rewrite list_lookup_insert_eq by assumption. rewrite Hplane. simpl.
        destruct (decide (j' = Z.to_nat j)) as [->|Hj'].
        -- rewrite list_lookup_insert_eq by lia. rewrite Hrow. simpl.
           apply list_lookup_insert_ne. intros Heq. apply Hd. auto.
        -- by rewrite list_lookup_insert_ne.
      * by rewrite list_lookup_insert_ne.
Qed.

Lemma np_zeros3_shape (a b c : nat) : shape3 a b c (np_zeros3 a b c).
Proof.
  unfold shape3, np_zeros3, np_zeros2, np_zeros. split; [apply length_replicate|].
  apply Forall_replicate. split; [apply length_replicate|].
  apply Forall_replicate, length_replicate.
Qed.

Lemma np_zeros3_lookup3 (a b c i j k : nat) :
  (i < a)%nat → (j < b)%nat → (k < c)%nat →
  lookup3 (np_zeros3 a b c) i j k = Some 0%float.
Proof.
  intros Hi Hj Hk. unfold lookup3, np_zeros3, np_zeros2, np_zeros.
  rewrite lookup_replicate_2 by assumption. simpl.
  rewrite lookup_replicate_2 by assumption. simpl.
  by apply lookup_replicate_2.
Qed.

(** ** Loops *)

Lemma for_in_app {A S : Type} (l1 l2 : list A) (body : A → S → res S) (st : S) :
  for_in (l1 ++ l2) body st = st' ← for_in l1 body st; for_in l2 body st'.
Proof.
  revert st. induction l1 as [|x l1 IH]; intros st; simpl; [done|].
  destruct (body x st) as [st'|e]; simpl; [apply IH | done].
Qed.

(** A loop nested in a loop visits the pairs in lexicographic order. *)
Lemma for_in_nested {A B S : Type} (l1 : list A) (l2 : list B)
    (body : A → B → S → res S) (st : S) :
  for_in l1 (λ x st, for_in l2 (body x) st) st =
  for_in (x ← l1; y ← l2; [(x, y)]) (λ xy, body xy.1 xy.2) st.
Proof.
  revert st. induction l1 as [|x l1 IH]; intros st; [done|].
  rewrite bind_cons, for_in_app. simpl.
  assert (∀ st, for_in (l2 ≫= λ y, [(x, y)]) (λ xy, body xy.1 xy.2) st
                = for_in l2 (body x) st) as ->.
  { clear. induction l2 as [|y l2 IH2]; intros st; simpl; [done|].
    destruct (body x y st); simpl; [apply IH2 | done]. }
  destruct (for_in l2 (body x) st); simpl; [apply IH | done].
Qed.

(** ** Dictionaries *)

Section dict_facts.
Context {K V : Type} `{EqDecision K}.
Implicit Types (k : K) (v : V) (d : list (K * V)).

Lemma dict_lookup_setitem_eq k v d : dict_lookup k (dict_setitem k v d) = Some v.
Proof.
  induction d as [|[k' v'] d IH]; simpl.
  - by rewrite decide_True.
  - destruct (decide (k = k')) as [->|Hne]; simpl.
    + by rewrite decide_True.
    + by rewrite decide_False.
Qed.

Lemma dict_lookup_setitem_ne k k' v d :
  k ≠ k' → dict_lookup k' (dict_setitem k v d) = dict_lookup k' d.
Proof.
  intros Hne. induction d as [|[k0 v0] d IH]; simpl.
  - by rewrite decide_False.
  - destruct (decide (k = k0)) as [->|Hne0]; simpl.
    + by rewrite !decide_False.
    + by rewrite IH.
Qed.

Lemma dict_setitem_twice k v v' d :
  dict_setitem k v (dict_setitem k v' d) = dict_setitem k v d.
Proof.
  induction d as [|[k0 v0] d IH]; simpl.
  - by rewrite decide_True.
  - destruct (decide (k = k0)) as [->|Hne0]; simpl.
    + by rewrite decide_True.
    + by rewrite decide_False, IH.
Qed.

(** Assigning to a key that is present keeps the order of the keys; a new
    key goes to the end. *)
Lemma dict_keys_setitem k v d :
  dict_keys (dict_setitem k v d) =
    match dict_lookup k d with
    | Some _ => dict_keys d
    | None => dict_keys d ++ [k]
    end.
Proof.
  unfold dict_keys. induction d as [|[k0 v0] d IH]; [done|].
  cbn [dict_setitem dict_lookup].
  destruct (decide (k = k0)) as [->|Hne0]; [done|].
  rewrite !fmap_cons, IH. by destruct (dict_lookup k d).
Qed.

Lemma dict_getitem_setitem_eq k v d : dict_getitem k (dict_setitem k v d) = Ok v.
Proof. unfold dict_getitem. by rewrite dict_lookup_setitem_eq. Qed.

End dict_facts.

Lemma dict_setitem2_setitem {K1 K2 V : Type} `{EqDecision K1, EqDecision K2}
    (k1 : K1) (k2 : K2) (v : V) (inner : list (K2 * V)) (d : list (K1 * list (K2 * V))) :
  dict_setitem2 k1 k2 v (dict_setitem k1 inner d) =
  Ok (dict_setitem k1 (dict_setitem k2 v inner) d).
Proof.
  unfold dict_setitem2. rewrite dict_getitem_setitem_eq. simpl.
  by rewrite dict_setitem_twice.
Qed.

Lemma for_in_ext {A S : Type} (l : list A) (f g : A → S → res S) (st : S) :
  (∀ x st, x ∈ l → f x st = g x st) → for_in l f st = for_in l g st.
Proof.
  revert st. induction l as [|x l IH]; intros st Hfg; simpl; [done|].
  rewrite (Hfg x st) by left. destruct (g x st) as [st'|e]; simpl; [|done].
  apply IH. intros y st'' Hy. apply Hfg. by right.
Qed.

Lemma collect_ok {A B : Type} (f : A → res B) (g : A → B) (l : list A) :
  (∀ x, x ∈ l → f x = Ok (g x)) → collect f l = Ok (g <$> l).
Proof.
  induction l as [|x l IH]; intros Hf; simpl; [done|].
  rewrite (Hf x) by left. simpl. rewrite IH; [done|].
  intros y Hy. apply Hf. by right.
Qed.

Module TutorialExtras.
Import Tutorial.

(** ** One iteration of the loop that fills [P] *)

Lemma P_body_result (state_index x y : Z) (P0 : list (Z * list (Z * pyval))) :
  P_body (state_index, (x, y)) P0 =
  Ok (dict_setitem state_index
        [(0, PyInt (if y =? 0 then state_index else state_index - 3));
         (1, PyInt (if x =? 2 then state_index else state_index + 1));
         (2, PyInt (if y =? 2 then state_index else state_index + 3));
         (3, PyInt (if x =? 0 then state_index else state_index - 1));
         (4, PyInt state_index)] P0).
Proof.
  unfold P_body.
  change (dict_getitem "UP" actions) with (Ok 0 : res Z).
  change (dict_getitem "RIGHT" actions) with (Ok 1 : res Z).
  change (dict_getitem "DOWN" actions) with (Ok 2 : res Z).
  change (dict_getitem "LEFT" actions) with (Ok 3 : res Z).
  change (dict_getitem "STAY" actions) with (Ok 4 : res Z).
  simpl. repeat (rewrite dict_setitem2_setitem; simpl).
  reflexivity.
Qed.

(** X3: one iteration of the loop that fills P works for every state index,
    every coordinate pair and every dictionary built so far. Afterwards
    P[state_index] holds an int for each of the five actions (none of the
    [] placeholders is left), each of them the index itself or the index
    moved by 1 or by 3; the entries of all other states are untouched; a
    state that was already a key keeps its place and a new one goes
    last. *)
Theorem P_body_any_state (state_index x y : Z) (P0 : list (Z * list (Z * pyval))) :
  ∃ P1, P_body (state_index, (x, y)) P0 = Ok P1 ∧
    (∀ a, 0 ≤ a < 5 → ∃ ns, P_get P1 state_index a = Ok (PyInt ns) ∧
       (ns = state_index ∨ ns = state_index - 1 ∨ ns = state_index + 1
        ∨ ns = state_index - 3 ∨ ns = state_index + 3)) ∧
    (∀ k, k ≠ state_index → dict_lookup k P1 = dict_lookup k P0) ∧
    dict_keys P1 =
      match dict_lookup state_index P0 with
      | Some _ => dict_keys P0
      | None => dict_keys P0 ++ [state_index]
      end.
Proof.
  eexists. split; [apply P_body_result|]. split; [|split].
  - intros a Ha. unfold P_get. rewrite dict_getitem_setitem_eq. simpl.
    revert a Ha. each_index; (eexists; split; [reflexivity|]);
      repeat case_match; lia.
  - intros k Hk. by apply dict_lookup_setitem_ne.
  - apply dict_keys_setitem.
Qed.

(** ** The loop that fills [B], for an arbitrary next-state table *)

Lemma B_loop_invariant (p : list (Z * list (Z * pyval))) (nsf : Z → Z → Z)
    (todo visited : list (Z * Z)) (B0 : list (list (list float))) :
  NoDup (visited ++ todo) →
  (∀ s a, (s, a) ∈ todo →
     0 ≤ s < 9 ∧ 0 ≤ a < 5 ∧ P_get p s a = Ok (PyInt (nsf s a)) ∧ -9 ≤ nsf s a < 9) →
  B_filled nsf visited B0 →
  ∃ B1,
    for_in todo
      (λ sa B, v ← P_get p sa.1 sa.2; ns ← py_int v; setitem3 B ns sa.1 sa.2 1%float)
      B0 = Ok B1 ∧
    B_filled nsf (visited ++ todo) B1.
Proof.
  revert visited B0. induction todo as [|[s a] todo IH]; intros visited B0 Hnd Hp HB0.
  { exists B0. by rewrite app_nil_r. }
  destruct (Hp s a) as (Hs & Ha & Hget & Hns); [left|].
  destruct HB0 as [Hshape Hentries]. unfold B_filled in *.
  destruct (setitem3_spec 9 9 5 B0 (nsf s a) s a 1%float Hshape)
    as (B' & Hset & Hshape' & Hentries'); [done..|].
  destruct (IH (visited ++ [(s, a)]) B') as (B1 & Hloop & HB1).
  - by rewrite <-app_assoc.
  - intros s' a' Hin. apply Hp. by right.
  - split; [assumption|]. intros ns' s' a' Hns' Hs' Ha'.
    rewrite Hentries', (Hentries ns' s' a') by assumption.
    apply NoDup_app in Hnd as (_ & Hfresh & _).
    assert ((s, a) ∉ visited) as Hnew by (intros Hin; apply (Hfresh _ Hin); left).
    pose proof (Z.mod_pos_bound (nsf s a) 9 ltac:(lia)) as Hmod.
    destruct (decide ((Z.of_nat s', Z.of_nat a') = (s, a))) as [Heq|Hne].
    + injection Heq as Hs'' Ha''.
      rewrite (bool_decide_eq_false_2 (_ ∈ visited ∧ _))
        by (rewrite Hs'', Ha''; intros [Hin _]; by apply Hnew).
      rewrite Hs'', Ha''.
      repeat case_bool_decide; try done; exfalso.
      * apply H0. split; [apply elem_of_app; right; left | lia].
      * apply H. destruct H0 as [_ Hn]. lia.
    + rewrite (bool_decide_eq_false_2 (_ ∧ _ = Z.to_nat s ∧ _))
        by (intros (_ & Hs'' & Ha''); apply Hne; f_equal; lia).
      repeat case_bool_decide; try done; exfalso.
      * destruct H as [Hin Hn]. apply H0. split; [apply elem_of_app; by left | done].
      * destruct H0 as [Hin Hn]. apply elem_of_app in Hin as [Hin|Hin].
        -- by apply H.
        -- by apply list_elem_of_singleton in Hin.
  - exists B1. split.
    + simpl. rewrite Hget. simpl. rewrite Hset. simpl. exact Hloop.
    + by rewrite <-app_assoc in HB1.
Qed.

Lemma B_of_as_one_loop (p : list (Z * list (Z * pyval))) :
  B_of p =
  for_in B_loop_order
    (λ sa B, v ← P_get p sa.1 sa.2; ns ← py_int v; setitem3 B ns sa.1 sa.2 1%float)
    (np_zeros3 9 9 5).
Proof.
  unfold B_of, B_loop_order.
  apply (for_in_nested (range num_states) (range (length actions))
           (λ s a B, v ← P_get p s a; ns ← py_int v; setitem3 B ns s a 1%float)).
Qed.

Lemma B_loop_order_NoDup : NoDup B_loop_order.
Proof. apply (bool_decide_unpack _). vm_compute. reflexivity. Qed.

Lemma B_loop_order_elem (s a : Z) :
  (s, a) ∈ B_loop_order ↔ 0 ≤ s < 9 ∧ 0 ≤ a < 5.
Proof.
  split.
  - intros Hin. vm_compute in Hin.
    repeat (apply elem_of_cons in Hin as [Hin|Hin]; [injection Hin as -> ->; lia|]).
    by apply elem_of_nil in Hin.
  - intros [Hs Ha]. revert a Ha. revert s Hs.
    each_index; each_index; apply (bool_decide_unpack _); vm_compute; reflexivity.
Qed.

(** The pairs visited before (s, a) are the lexicographically smaller
    ones. *)
Lemma B_loop_order_split (s a : Z) :
  0 ≤ s < 9 → 0 ≤ a < 5 →
  ∃ before after, B_loop_order = before ++ (s, a) :: after ∧
    Forall (λ sa, 0 ≤ sa.1 < 9 ∧ 0 ≤ sa.2 < 5 ∧ (sa.1 < s ∨ sa.1 = s ∧ sa.2 < a)) before.
Proof.
  intros Hs Ha. revert a Ha. revert s Hs.
  each_index; each_index;
    lazymatch goal with
    | |- ∃ _ _, _ = _ ++ (?s, ?a) :: _ ∧ _ =>
        exists (take (Z.to_nat (5 * s + a)) B_loop_order),
               (drop (S (Z.to_nat (5 * s + a))) B_loop_order)
    end;
    (split; [vm_compute; reflexivity | apply (bool_decide_unpack _); vm_compute; reflexivity]).
Qed.

Lemma B_filled_start (nsf : Z → Z → Z) : B_filled nsf [] (np_zeros3 9 9 5).
Proof.
  split; [apply np_zeros3_shape|]. intros ns s a Hns Hs Ha.
  rewrite np_zeros3_lookup3 by assumption.
  rewrite bool_decide_eq_false_2; [done|]. intros [Hin _]. by apply elem_of_nil in Hin.
Qed.

Lemma B_of_entries (p : list (Z * list (Z * pyval))) (nsf : Z → Z → Z) :
  (∀ s a, 0 ≤ s < 9 → 0 ≤ a < 5 →
     P_get p s a = Ok (PyInt (nsf s a)) ∧ -9 ≤ nsf s a < 9) →
  ∃ Bv, B_of p = Ok Bv ∧ shape3 9 9 5 Bv ∧
    ∀ ns s a, 0 ≤ ns < 9 → 0 ≤ s < 9 → 0 ≤ a < 5 →
      getitem3 Bv ns s a =
        Ok (if bool_decide (ns = nsf s a `mod` 9) then 1%float else 0%float).
Proof.
  intros Hp.
  destruct (B_loop_invariant p nsf B_loop_order [] (np_zeros3 9 9 5))
    as (Bv & Hloop & Hshape & Hentries).
  - apply B_loop_order_NoDup.
  - intros s a Hin. apply B_loop_order_elem in Hin as [Hs Ha].
    destruct (Hp s a Hs Ha) as [Hget Hns]. done.
  - apply B_filled_start.
  - exists Bv. split; [by rewrite B_of_as_one_loop|]. split; [assumption|].
    intros ns s a Hns Hs Ha. apply getitem3_lookup3; [lia..|].
    rewrite Hentries by lia. rewrite !Z2Nat.id by lia. f_equal.
    apply (f_equal (λ b : bool, if b then 1%float else 0%float)).
    apply bool_decide_ext. split; [by intros [_ ?]|].
    intros Heq. split; [|assumption]. simpl. by apply B_loop_order_elem.
Qed.

(** X1: the loop that fills B works for every next-state table, not only
    for the P of the notebook. If every entry P[s][a] (s in 0..8, a in
    0..4) is an int in -9..8, the loop completes, B has shape (9, 9, 5),
    and B[ns, s, a] is 1 exactly at the next state P[s][a], a negative
    entry counting from the end (P[s][a] mod 9), and 0 elsewhere. *)
Theorem B_of_any_table (p : list (Z * list (Z * pyval))) (nsf : Z → Z → Z) :
  (∀ s a, 0 ≤ s < 9 → 0 ≤ a < 5 →
     P_get p s a = Ok (PyInt (nsf s a)) ∧ -9 ≤ nsf s a < 9) →
  ∃ Bv, B_of p = Ok Bv ∧ shape3 9 9 5 Bv ∧
    ∀ ns s a, 0 ≤ ns < 9 → 0 ≤ s < 9 → 0 ≤ a < 5 →
      getitem3 Bv ns s a =
        Ok (if bool_decide (ns = nsf s a `mod` 9) then 1%float else 0%float).
Proof. apply B_of_entries. Qed.

Lemma B_of_any_table_witness :
  let p := (λ s, (s, (λ a, (a, PyInt (-1))) <$> range 5)) <$> range 9 in
  ∃ Bv, B_of p = Ok Bv ∧ shape3 9 9 5 Bv ∧
    ∀ ns s a, 0 ≤ ns < 9 → 0 ≤ s < 9 → 0 ≤ a < 5 →
      getitem3 Bv ns s a =
        Ok (if bool_decide (ns = (-1) `mod` 9) then 1%float else 0%float).
Proof.
  apply (B_of_any_table _ (λ _ _, -1)).
  intros s a Hs Ha. split; [|lia]. revert a Ha. revert s Hs.
  each_index; each_index; vm_compute; reflexivity.
Defined.

(** X2: the loop that fills B stops at the first entry of the table that is
    not an int in -9..8, in the order s = 0..8, a = 0..4: with the error
    of the lookup when P[s][a] is missing (KeyError), with TypeError when
    it is still a list, with IndexError when it is an int out of range
    that fits a signed 64-bit integer. *)
Theorem B_of_first_bad_entry (p : list (Z * list (Z * pyval))) (s a : Z) :
  0 ≤ s < 9 → 0 ≤ a < 5 →
  (∀ s' a', 0 ≤ s' < 9 → 0 ≤ a' < 5 → s' < s ∨ s' = s ∧ a' < a →
     ∃ ns, P_get p s' a' = Ok (PyInt ns) ∧ -9 ≤ ns < 9) →
  (∀ e, P_get p s a = Raise e → B_of p = Raise e) ∧
  (∀ l, P_get p s a = Ok (PyList l) → B_of p = Raise TypeError) ∧
  (∀ ns, P_get p s a = Ok (PyInt ns) → ¬ (-9 ≤ ns < 9) → - 2 ^ 63 ≤ ns < 2 ^ 63 →
     B_of p = Raise IndexError).
Proof.
  intros Hs Ha Hearlier.
  destruct (B_loop_order_split s a Hs Ha) as (before & after & Horder & Hbefore).
  pose proof B_loop_order_NoDup as Hnd. rewrite Horder in Hnd.
  apply NoDup_app in Hnd as (Hnd & _ & _).
  destruct (B_loop_invariant p (table_entry p) before [] (np_zeros3 9 9 5))
    as (B1 & Hloop & [[Hlen _] _]).
  { assumption. }
  { intros s' a' Hin. rewrite Forall_forall in Hbefore.
    destruct (Hbefore _ Hin) as (Hs' & Ha' & Hlt). simpl in *.
    destruct (Hearlier s' a' Hs' Ha' Hlt) as (ns & Hget & Hns).
    unfold table_entry. rewrite Hget. done. }
  { apply B_filled_start. }
  rewrite B_of_as_one_loop, Horder, for_in_app, Hloop. simpl.
  split; [|split].
  - intros e He. by rewrite He.
  - intros l Hl. by rewrite Hl.
  - intros ns Hget Hns _. rewrite Hget. simpl. unfold setitem3.
    rewrite getitem1_out_of_range; [done|]. rewrite Hlen. lia.
Qed.

Lemma B_of_first_bad_entry_witness :
  let p := [(0, [(0, PyInt 0); (1, PyList [])])] in
  (∀ e, P_get p 0 1 = Raise e → B_of p = Raise e) ∧
  (∀ l, P_get p 0 1 = Ok (PyList l) → B_of p = Raise TypeError) ∧
  (∀ ns, P_get p 0 1 = Ok (PyInt ns) → ¬ (-9 ≤ ns < 9) → - 2 ^ 63 ≤ ns < 2 ^ 63 →
     B_of p = Raise IndexError).
Proof.
  apply (B_of_first_bad_entry [(0, [(0, PyInt 0); (1, PyList [])])] 0 1); [lia..|].
  intros s' a' Hs' Ha' Hlt. assert (s' = 0) as -> by lia. assert (a' = 0) as -> by lia.
  exists 0. split; [vm_compute; reflexivity | lia].
Defined.

(** X14: the loop that fills B reads the table only at P[s][a] for s in
    0..8 and a in 0..4. Two tables that agree on these entries, whatever
    other keys they hold and in whatever order, give the same B or the
    same exception. *)
Theorem B_of_reads_grid_entries_only (p p' : list (Z * list (Z * pyval))) :
  (∀ s a, 0 ≤ s < 9 → 0 ≤ a < 5 → P_get p s a = P_get p' s a) →
  B_of p = B_of p'.
Proof.
  intros Hpp. rewrite !B_of_as_one_loop. apply for_in_ext.
  intros [s a] Bv Hin. apply B_loop_order_elem in Hin as [Hs Ha]. simpl.
  by rewrite (Hpp s a Hs Ha).
Qed.

Lemma B_of_reads_grid_entries_only_witness :
  B_of [(0, [(0, PyInt 1)]); (9, [])] = B_of [(7, []); (0, [(5, PyList []); (0, PyInt 1)])].
Proof.
  apply B_of_reads_grid_entries_only. intros s a Hs Ha.
  revert a Ha. revert s Hs. each_index; each_index; vm_compute; reflexivity.
Defined.

Lemma indicator_one_hot (m : Z) :
  0 ≤ m < 9 →
  one_hot ((λ ns, if bool_decide (ns = m) then 1%float else 0%float) <$> range 9) ∧
  ((λ ns, if bool_decide (ns = m) then 1%float else 0%float) <$> range 9)
    !! Z.to_nat m = Some 1%float.
Proof.
  revert m. each_index; (split; [vm_compute; repeat constructor | reflexivity]).
Qed.

(** X15: for every table whose entries are ints in -9..8, B is
    column-stochastic: each column B[:, s, a] has nine entries, a single
    1.0 at the next state and 0.0 elsewhere, and sums to 1 in whatever
    order it is added. *)
Theorem B_of_columns_are_distributions
    (p : list (Z * list (Z * pyval))) (nsf : Z → Z → Z) :
  (∀ s a, 0 ≤ s < 9 → 0 ≤ a < 5 →
     P_get p s a = Ok (PyInt (nsf s a)) ∧ -9 ≤ nsf s a < 9) →
  ∃ Bv, B_of p = Ok Bv ∧
    ∀ s a, 0 ≤ s < 9 → 0 ≤ a < 5 →
      ∃ col, B_column Bv s a = Ok col ∧ length col = 9%nat ∧ one_hot col ∧
        col !! Z.to_nat (nsf s a `mod` 9) = Some 1%float ∧
        ∀ col', col ≡ₚ col' → np_sum col' = 1%float.
Proof.
  intros Hp. destruct (B_of_entries p nsf Hp) as (Bv & HB & [Hlen _] & Hentries).
  exists Bv. split; [exact HB|]. intros s a Hs Ha.
  destruct (Hp s a Hs Ha) as [_ Hns].
  pose proof (Z.mod_pos_bound (nsf s a) 9 ltac:(lia)) as Hmod.
  destruct (indicator_one_hot (nsf s a `mod` 9) Hmod) as [Hoh Hone].
  eexists. split; [|split; [|split; [exact Hoh|split; [exact Hone|]]]].
  - unfold B_column. rewrite Hlen. apply collect_ok.
    intros ns Hin. apply Hentries; [|assumption..].
    apply list_elem_of_fmap in Hin as (k & -> & Hk). apply elem_of_seq in Hk. lia.
  - reflexivity.
  - by apply one_hot_sum_any_order.
Qed.

Lemma B_of_columns_are_distributions_witness :
  let p := (λ s, (s, (λ a, (a, PyInt (-1))) <$> range 5)) <$> range 9 in
  ∃ Bv, B_of p = Ok Bv ∧
    ∀ s a, 0 ≤ s < 9 → 0 ≤ a < 5 →
      ∃ col, B_column Bv s a = Ok col ∧ length col = 9%nat ∧ one_hot col ∧
        col !! Z.to_nat ((-1) `mod` 9) = Some 1%float ∧
        ∀ col', col ≡ₚ col' → np_sum col' = 1%float.
Proof.
  apply (B_of_columns_are_distributions _ (λ _ _, -1)).
  intros s a Hs Ha. split; [|lia]. revert a Ha. revert s Hs.
  each_index; each_index; vm_compute; reflexivity.
Defined.

(** ** The grid-world moves *)

Ltac coordinate_cases H :=
  apply dict_getitem_elem_of in H; vm_compute state_mapping in H;
  repeat (apply elem_of_cons in H as [H|H]; [injection H as -> -> ->|]);
  [..|by apply elem_of_nil in H].

(** X4: the index arithmetic of P agrees with the geometry of the grid. For
    a state at (x, y), UP leads to the state at (x, max(y-1, 0)), RIGHT to
    (min(x+1, 2), y), DOWN to (x, min(y+1, 2)), LEFT to (max(x-1, 0), y)
    and STAY to (x, y). *)
Theorem moves_follow_coordinates (s x y : Z) :
  dict_getitem s state_mapping = Ok (x, y) →
  (ns ← move s "UP"; dict_getitem ns state_mapping) = Ok (x, Z.max (y - 1) 0) ∧
  (ns ← move s "RIGHT"; dict_getitem ns state_mapping) = Ok (Z.min (x + 1) 2, y) ∧
  (ns ← move s "DOWN"; dict_getitem ns state_mapping) = Ok (x, Z.min (y + 1) 2) ∧
  (ns ← move s "LEFT"; dict_getitem ns state_mapping) = Ok (Z.max (x - 1) 0, y) ∧
  (ns ← move s "STAY"; dict_getitem ns state_mapping) = Ok (x, y).
Proof.
  intros H. coordinate_cases H;
    (split; [|split; [|split; [|split]]]); vm_compute; reflexivity.
Qed.

Lemma moves_follow_coordinates_witness :
  (ns ← move 5 "UP"; dict_getitem ns state_mapping) = Ok (2, Z.max (1 - 1) 0) ∧
  (ns ← move 5 "RIGHT"; dict_getitem ns state_mapping) = Ok (Z.min (2 + 1) 2, 1) ∧
  (ns ← move 5 "DOWN"; dict_getitem ns state_mapping) = Ok (2, Z.min (1 + 1) 2) ∧
  (ns ← move 5 "LEFT"; dict_getitem ns state_mapping) = Ok (Z.max (2 - 1) 0, 1) ∧
  (ns ← move 5 "STAY"; dict_getitem ns state_mapping) = Ok (2, 1).
Proof. apply (moves_follow_coordinates 5 2 1). vm_compute. reflexivity. Defined.

(** X5: an action leaves the state where it is only when it is STAY or
    when the move would leave the grid; a move that stays on the grid
    always changes the state. *)
Theorem stays_only_at_walls (s a : Z) :
  0 ≤ s < 9 → 0 ≤ a < 5 →
  next_state s a = Ok s ↔ is_action "STAY" a = true ∨ moves_off_grid s a = true.
Proof.
  intros Hs Ha. revert a Ha. revert s Hs.
  each_index; each_index; vm_compute;
    (split; [intros Heq | intros [Heq|Heq]]);
    first [reflexivity | discriminate | left; reflexivity | right; reflexivity].
Qed.

Lemma stays_only_at_walls_witness :
  (next_state 4 1 = Ok 4 ↔ is_action "STAY" 1 = true ∨ moves_off_grid 4 1 = true) ∧
  (next_state 5 1 = Ok 5 ↔ is_action "STAY" 1 = true ∨ moves_off_grid 5 1 = true).
Proof.
  split; [apply (stays_only_at_walls 4 1); lia | apply (stays_only_at_walls 5 1); lia].
Defined.

(** X6: the slice of B for STAY is the likelihood matrix A, the identity:
    B[i, j, STAY] = A[i, j] for all states i, j. *)
Theorem B_stay_is_A (a i j : Z) :
  dict_getitem "STAY" actions = Ok a → 0 ≤ i < 9 → 0 ≤ j < 9 →
  B_entry i j a = getitem2 A i j.
Proof.
  intros Ha Hi Hj. vm_compute in Ha. injection Ha as <-.
  revert j Hj. revert i Hi.
  each_index; each_index; vm_compute; reflexivity.
Qed.

Lemma B_stay_is_A_witness : B_entry 7 7 4 = getitem2 A 7 7 ∧ B_entry 7 2 4 = getitem2 A 7 2.
Proof.
  split; [apply (B_stay_is_A 4 7 7) | apply (B_stay_is_A 4 7 2)];
    first [lia | vm_compute; reflexivity].
Defined.

(** X7: a vertical and a horizontal move commute: from every state, UP or
    DOWN followed by LEFT or RIGHT ends in the same state as the two moves
    in the other order, walls included. *)
Theorem vertical_and_horizontal_commute (s : Z) (v h : string) :
  0 ≤ s < 9 → v ∈ ["UP"; "DOWN"] → h ∈ ["LEFT"; "RIGHT"] →
  ∃ t, (ns ← move s v; move ns h) = Ok t ∧ (ns ← move s h; move ns v) = Ok t.
Proof.
  intros Hs Hv Hh.
  repeat (apply elem_of_cons in Hv as [->|Hv]); [..|by apply elem_of_nil in Hv];
  (repeat (apply elem_of_cons in Hh as [->|Hh]); [..|by apply elem_of_nil in Hh]);
  revert s Hs; each_index; eexists; split; vm_compute; reflexivity.
Qed.

Lemma vertical_and_horizontal_commute_witness :
  ∃ t, (ns ← move 2 "UP"; move ns "RIGHT") = Ok t ∧
       (ns ← move 2 "RIGHT"; move ns "UP") = Ok t.
Proof.
  apply (vertical_and_horizontal_commute 2 "UP" "RIGHT");
    [lia | left | right; left].
Defined.

Ltac step_closer a :=
  exists a; eexists; split; [lia|]; split; [vm_compute; reflexivity|];
  split; [lia | vm_compute; reflexivity].

(** Every action changes the Manhattan distance to a target by at most 1,
    and away from the target one of the four moves decreases it. *)
Lemma distance_step (s t : Z) :
  0 ≤ s < 9 → 0 ≤ t < 9 →
  ∃ d, manhattan s t = Ok d ∧ 0 ≤ d ∧ (d = 0 ↔ s = t) ∧
    (∀ a, 0 ≤ a < 5 →
       ∃ ns d', next_state s a = Ok ns ∧ 0 ≤ ns < 9 ∧
         manhattan ns t = Ok d' ∧ d - 1 ≤ d' ≤ d + 1) ∧
    (s ≠ t →
       ∃ a ns, 0 ≤ a < 4 ∧ next_state s a = Ok ns ∧ 0 ≤ ns < 9 ∧
         manhattan ns t = Ok (d - 1)).
Proof.
  intros Hs Ht. revert t Ht. revert s Hs.
  each_index; each_index;
    (eexists; split; [vm_compute; reflexivity|]; split; [lia|]; split; [lia|]; split;
     [ each_index;
       (eexists _, _; split; [vm_compute; reflexivity|]; split; [lia|];
        split; [vm_compute; reflexivity | lia])
     | intros Hne;
       first [exfalso; lia | step_closer 0 | step_closer 1
             | step_closer 2 | step_closer 3] ]).
Qed.

Lemma run_cons (s a : Z) (acts : list Z) :
  run s (a :: acts) = ns ← next_state s a; run ns acts.
Proof. reflexivity. Qed.

Lemma path_exists (n : nat) (s t d : Z) :
  0 ≤ s < 9 → 0 ≤ t < 9 → manhattan s t = Ok d → d = Z.of_nat n →
  ∃ acts, length acts = n ∧ Forall (λ a, 0 ≤ a < 4) acts ∧ run s acts = Ok t.
Proof.
  revert s d. induction n as [|n IH]; intros s d Hs Ht Hd Hn.
  - destruct (distance_step s t Hs Ht) as (d0 & Hd0 & _ & Hzero & _).
    rewrite Hd in Hd0. injection Hd0 as <-.
    exists []. split; [done|]. split; [done|].
    unfold run. simpl. f_equal. apply Hzero. lia.
  - destruct (distance_step s t Hs Ht) as (d0 & Hd0 & _ & Hzero & _ & Hcloser).
    rewrite Hd in Hd0. injection Hd0 as <-.
    destruct Hcloser as (a & ns & Ha & Hstep & Hns & Hd'); [intros Heq; apply Hzero in Heq; lia|].
    destruct (IH ns (d - 1) Hns Ht Hd' ltac:(lia)) as (acts & Hlen & Hacts & Hrun).
    exists (a :: acts). split; [simpl; by rewrite Hlen|]. split; [by constructor|].
    rewrite run_cons, Hstep. exact Hrun.
Qed.

Lemma path_not_shorter (acts : list Z) (s t d : Z) :
  0 ≤ s < 9 → 0 ≤ t < 9 → manhattan s t = Ok d →
  Forall (λ a, 0 ≤ a < 5) acts → run s acts = Ok t →
  d ≤ Z.of_nat (length acts).
Proof.
  revert s d. induction acts as [|a acts IH]; intros s d Hs Ht Hd Hacts Hrun.
  - unfold run in Hrun. simpl in Hrun. injection Hrun as ->.
    destruct (distance_step t t Hs Ht) as (d0 & Hd0 & _ & Hzero & _).
    rewrite Hd in Hd0. injection Hd0 as <-.
    assert (d = 0) by (by apply Hzero). simpl. lia.
  - apply Forall_cons in Hacts as [Ha Hacts].
    destruct (distance_step s t Hs Ht) as (d0 & Hd0 & _ & _ & Hstep & _).
    rewrite Hd in Hd0. injection Hd0 as <-.
    destruct (Hstep a Ha) as (ns & d' & Hns & Hnsr & Hd' & Hbound).
    rewrite run_cons, Hns in Hrun. simpl in Hrun.
    pose proof (IH ns d' Hnsr Ht Hd' Hacts Hrun). simpl length. lia.
Qed.

(** X8: the fewest moves between two states is their Manhattan distance.
    For states s and t at distance d = |x - x'| + |y - y'| there is a
    sequence of exactly d moves that leads from s to t, and no sequence
    of actions that leads from s to t is shorter. *)
Theorem fewest_moves_is_distance (s t : Z) :
  0 ≤ s < 9 → 0 ≤ t < 9 →
  ∃ d, manhattan s t = Ok d ∧
    (∃ acts, Z.of_nat (length acts) = d ∧ Forall (λ a, 0 ≤ a < 4) acts ∧
       run s acts = Ok t) ∧
    (∀ acts, Forall (λ a, 0 ≤ a < 5) acts → run s acts = Ok t →
       d ≤ Z.of_nat (length acts)).
Proof.
  intros Hs Ht. destruct (distance_step s t Hs Ht) as (d & Hd & Hpos & _).
  exists d. split; [exact Hd|]. split.
  - destruct (path_exists (Z.to_nat d) s t d Hs Ht Hd ltac:(lia))
      as (acts & Hlen & Hacts & Hrun).
    exists acts. split; [lia|]. split; assumption.
  - intros acts Hacts Hrun. by apply (path_not_shorter acts s t).
Qed.

Lemma fewest_moves_is_distance_witness :
  ∃ d, manhattan 0 8 = Ok d ∧
    (∃ acts, Z.of_nat (length acts) = d ∧ Forall (λ a, 0 ≤ a < 4) acts ∧
       run 0 acts = Ok 8) ∧
    (∀ acts, Forall (λ a, 0 ≤ a < 5) acts → run 0 acts = Ok 8 →
       d ≤ Z.of_nat (length acts)).
Proof. apply (fewest_moves_is_distance 0 8); lia. Defined.

(** ** The plots of the slices of [B] *)

Lemma B_slice_shape (Bv : list (list (list float))) (k : Z) :
  shape3 9 9 5 Bv → 0 ≤ k < 5 →
  B_slice Bv k =
  Ok ((λ plane : list (list float),
         (λ row : list float, default 0%float (row !! Z.to_nat k)) <$> plane) <$> Bv).
Proof.
  intros [_ Hall] Hk. unfold B_slice. apply collect_ok. intros plane Hplane.
  rewrite Forall_forall in Hall. destruct (Hall _ Hplane) as [_ Hrows].
  apply collect_ok. intros row Hrow.
  rewrite Forall_forall in Hrows. pose proof (Hrows _ Hrow) as Hlen. cbv beta in Hlen.
  destruct (lookup_lt_is_Some_2 row (Z.to_nat k)) as [x Hx]; [lia|].
  rewrite Hx. simpl. apply getitem1_in_range; [lia | assumption].
Qed.

(** X9: the cell that plots B draws each of the five slices exactly once,
    whatever B of shape (9, 9, 5) and whatever tick labels it is given:
    slice number c goes to the axis in row c / 3 and column c mod 3 and is
    titled with the name of the action whose number is c; the inner break
    stops the drawing after five slices, so the axis (1, 2), the one that
    is deleted afterwards, was never drawn on. *)
Theorem plot_B_titles (Bv : list (list (list float))) (lbls : list (Z * Z)) :
  shape3 9 9 5 Bv →
  ∃ drawn, plot_B Bv lbls = Ok (drawn, (1, 2)) ∧
    hm_ax <$> drawn = [(0, 0); (0, 1); (0, 2); (1, 0); (1, 1)] ∧
    ∀ (c : nat) (hm : heatmap), drawn !! c = Some hm →
      hm_ax hm = (Z.of_nat c `div` 3, Z.of_nat c `mod` 3) ∧
      dict_getitem (hm_title hm) actions = Ok (Z.of_nat c) ∧
      B_slice Bv (Z.of_nat c) = Ok (hm_data hm) ∧
      hm_ticklabels hm = lbls.
Proof.
  intros Hshape.
  pose proof (λ k, B_slice_shape Bv k Hshape) as Hslice.
  eexists. split; [|split].
  - unfold plot_B.
    change (range (Z.to_nat (dim - 1))) with [0; 1].
    change (range (Z.to_nat dim)) with [0; 1; 2].
    change (dict_keys actions) with ["UP"; "RIGHT"; "DOWN"; "LEFT"; "STAY"]%string.
    change (subplots 2 3) with [[(0, 0); (0, 1); (0, 2)]; [(1, 0); (1, 1); (1, 2)]].
    set (slice := B_slice Bv) in *.
    do 5 (simpl; rewrite Hslice by lia). simpl. reflexivity.
  - reflexivity.
  - intros c hm Hc.
    do 5 (destruct c as [|c];
          [injection Hc as <-; split; [reflexivity|]; split; [reflexivity|];
           split; [rewrite Hslice by lia; reflexivity | reflexivity]|]).
    discriminate.
Qed.

Lemma plot_B_titles_witness :
  ∃ drawn, plot_B (np_zeros3 9 9 5) [] = Ok (drawn, (1, 2)) ∧
    hm_ax <$> drawn = [(0, 0); (0, 1); (0, 2); (1, 0); (1, 1)] ∧
    ∀ (c : nat) (hm : heatmap), drawn !! c = Some hm →
      hm_ax hm = (Z.of_nat c `div` 3, Z.of_nat c `mod` 3) ∧
      dict_getitem (hm_title hm) actions = Ok (Z.of_nat c) ∧
      B_slice (np_zeros3 9 9 5) (Z.of_nat c) = Ok (hm_data hm) ∧
      hm_ticklabels hm = [].
Proof. apply (plot_B_titles (np_zeros3 9 9 5) []). apply np_zeros3_shape. Defined.

End TutorialExtras.

Module DemoExtras.
Import Demo.
Local Open Scope string_scope.

(** ** Option 2 on a table that already holds values *)

(** X10: Option 2 does not fill the whole table. Run on a table with the
    labels of the stub and any contents, it succeeds, keeps the labels,
    overwrites eighteen cells with its literals and leaves two cells as
    they were: (grass dry | rained, on) and (grass wet | did_not_rain,
    off); those two columns are normalised only if the table held zeros
    there. Running it a second time changes nothing. *)
Theorem option2_overwrites (cell : nat → nat → float) :
  ∃ df, fill_option2 false (table_of cell) = Ok df ∧
    index df = index (table_of cell) ∧ columns df = columns (table_of cell) ∧
    values df =
      [[1; 0.7; 0.5; cell 0%nat 3%nat]; [cell 1%nat 0%nat; 0.3; 0.5; 1];
       [0.1; 0.1; 0.9; 0.9]; [0.65; 0.65; 0.05; 0.05];
       [0.25; 0.25; 0.05; 0.05]]%float ∧
    fill_option2 false df = Ok df.
Proof.
  eexists. split; [vm_compute; reflexivity|].
  split; [reflexivity|]. split; [reflexivity|]. split; [reflexivity|].
  vm_compute. reflexivity.
Qed.

(** ** The observation cell, for arbitrary indices *)

Lemma interval_cases (lo hi : Z) (Q : Z → Prop) :
  Forall Q ((λ z, z + lo) <$> range (Z.to_nat (hi - lo))) → ∀ z, lo ≤ z < hi → Q z.
Proof.
  intros HQ z Hz. rewrite Forall_forall in HQ. apply HQ.
  apply list_elem_of_fmap. exists (z - lo). split; [lia|].
  unfold range. apply list_elem_of_fmap. exists (Z.to_nat (z - lo)).
  split; [lia | apply elem_of_seq; lia].
Qed.

Ltac each_signed_index :=
  lazymatch goal with
  | |- ∀ z : Z, ?lo ≤ z < ?hi → @?Q z => apply (interval_cases lo hi Q)
  end;
  vm_compute (fmap _ _);
  repeat (apply List.Forall_cons; [cbv beta|]); [..|apply List.Forall_nil].

Lemma getitem1_head {T : Type} (x : T) (l : list T) : getitem1 (x :: l) 0 = Ok x.
Proof. by apply getitem1_in_range. Qed.

Lemma getitem1_second {T : Type} (x y : T) (l : list T) : getitem1 (x :: y :: l) 1 = Ok y.
Proof. by apply getitem1_in_range. Qed.

Lemma build_observation_unfold (obs_idx : list Z) :
  build_observation obs_idx =
  (i ← getitem1 obs_idx 0;
   observation ← setitem2 [[0; 0]; [0; 0; 0]]%float 0 i 1%float;
   name ← getitem1 ["wet"; "dry"] i;
   let out := ["grass_observation: " +:+ name] in
   i ← getitem1 obs_idx 1;
   observation ← setitem2 observation 1 i 1%float;
   name ← getitem1 ["clear"; "rainy"; "cloudy"] i;
   Ok (observation, (out ++ ["weather_observation: " +:+ name])%list)).
Proof.
  unfold build_observation.
  change (imap _ _) with [(0, "grass_observation"); (1, "weather_observation")].
  change (obj_array_zeros num_obs) with [[0; 0]; [0; 0; 0]]%float.
  cbn [for_in].
  destruct (getitem1 obs_idx 0) as [i0|]; [simpl|done].
  destruct (setitem2 _ 0 i0 _) as [o|]; [simpl|done].
  change (dict_getitem "grass_observation" (observations model_labels))
    with (Ok ["wet"; "dry"] : res (list string)). simpl.
  destruct (getitem1 ["wet"; "dry"] i0) as [n0|]; [simpl|done].
  destruct (getitem1 obs_idx 1) as [i1|]; [simpl|done].
  destruct (setitem2 o 1 i1 _) as [o'|]; [simpl|done].
  change (dict_getitem "weather_observation" (observations model_labels))
    with (Ok ["clear"; "rainy"; "cloudy"] : res (list string)). simpl.
  by destruct (getitem1 ["clear"; "rainy"; "cloudy"] i1).
Qed.

Lemma setitem2_bad_column {T : Type} (arr : list (list T)) (i j : Z) (row : list T) (v : T) :
  getitem1 arr i = Ok row →
  ¬ (- Z.of_nat (length row) ≤ j < Z.of_nat (length row)) →
  setitem2 arr i j v = Raise IndexError.
Proof.
  intros Hrow Hj. unfold setitem2, setitem1. rewrite Hrow. simpl.
  rewrite (norm_index_out_of_range (length row) j) by assumption. reflexivity.
Qed.

Lemma first_index_out_of_range (i0 : Z) (rest : list Z) :
  ¬ (-2 ≤ i0 < 2) → build_observation (i0 :: rest) = Raise IndexError.
Proof.
  intros Hi0. rewrite build_observation_unfold, getitem1_head. simpl.
  by rewrite (setitem2_bad_column _ 0 i0 [0; 0]%float).
Qed.

(** X11: negative observation indices count from the end, and the printed
    labels always name the entries that are set. For indices with
    -d <= obs_idx[g] < d (d the number of outcomes of modality g) the
    cell succeeds; observation[g] is one-hot with its 1.0 at position
    obs_idx[g] mod d, and line g of the output is the name of the
    modality followed by the outcome label at that same position. *)
Theorem observation_labels_match (obs_idx : list Z) :
  Forall2 (λ i d, - Z.of_nat d ≤ i < Z.of_nat d) obs_idx num_obs →
  ∃ observation out,
    build_observation obs_idx = Ok (observation, out) ∧
    ∀ (g : nat) (i : Z) (name : string) (outcomes : list string),
      obs_idx !! g = Some i →
      dict_items (observations model_labels) !! g = Some (name, outcomes) →
      ∃ vec label,
        observation !! g = Some vec ∧ one_hot vec ∧ length vec = length outcomes ∧
        vec !! Z.to_nat (i `mod` Z.of_nat (length outcomes)) = Some 1%float ∧
        outcomes !! Z.to_nat (i `mod` Z.of_nat (length outcomes)) = Some label ∧
        out !! g = Some (name +:+ ": " +:+ label).
Proof.
  intros H. vm_compute num_obs in H.
  apply Forall2_cons_inv_r in H as (i0 & l & H0 & H & ->).
  apply Forall2_cons_inv_r in H as (i1 & l' & H1 & H & ->).
  apply Forall2_nil_inv_r in H as ->.
  revert i1 H1. revert i0 H0.
  each_signed_index; each_signed_index;
    (eexists _, _; split; [vm_compute; reflexivity|]);
    intros g i name outcomes Hi Hname;
    destruct g as [|[|g]]; simpl in Hi; try discriminate;
    injection Hi as <-; vm_compute in Hname; injection Hname as <- <-;
    (eexists _, _; split; [reflexivity|]; split; [repeat constructor|];
     repeat split; reflexivity).
Qed.

Lemma observation_labels_match_witness :
  ∃ observation out,
    build_observation [-1; -3] = Ok (observation, out) ∧
    ∀ (g : nat) (i : Z) (name : string) (outcomes : list string),
      [-1; -3] !! g = Some i →
      dict_items (observations model_labels) !! g = Some (name, outcomes) →
      ∃ vec label,
        observation !! g = Some vec ∧ one_hot vec ∧ length vec = length outcomes ∧
        vec !! Z.to_nat (i `mod` Z.of_nat (length outcomes)) = Some 1%float ∧
        outcomes !! Z.to_nat (i `mod` Z.of_nat (length outcomes)) = Some label ∧
        out !! g = Some (name +:+ ": " +:+ label).
Proof.
  apply (observation_labels_match [-1; -3]).
  change num_obs with [2; 3]%nat.
  constructor; [cbv beta; lia|]. constructor; [cbv beta; lia|]. constructor.
Defined.

(** X12: every other list of indices whose first two entries fit a signed
    64-bit integer is rejected with IndexError: a list with fewer than two
    entries, a first entry outside -2..1, or a second entry outside
    -3..2. *)
Theorem observation_index_error (obs_idx : list Z) :
  Forall (λ i, - 2 ^ 63 ≤ i < 2 ^ 63) (take 2 obs_idx) →
  (∀ i0 i1 rest, obs_idx = i0 :: i1 :: rest → ¬ (-2 ≤ i0 < 2 ∧ -3 ≤ i1 < 3)) →
  build_observation obs_idx = Raise IndexError.
Proof.
  intros _ Hbad. destruct obs_idx as [|i0 [|i1 rest]].
  - vm_compute. reflexivity.
  - destruct (decide (-2 ≤ i0 < 2)) as [Hi0|Hi0];
      [|by apply first_index_out_of_range].
    revert i0 Hi0 Hbad. each_signed_index; intros _; vm_compute; reflexivity.
  - destruct (decide (-2 ≤ i0 < 2)) as [Hi0|Hi0];
      [|by apply first_index_out_of_range].
    assert (¬ (-3 ≤ i1 < 3)) as Hi1
      by (intros Hi1; by apply (Hbad i0 i1 rest)).
    clear Hbad. rewrite build_observation_unfold, getitem1_head.
    revert i0 Hi0. each_signed_index; simpl;
      rewrite getitem1_second; simpl;
      by rewrite (setitem2_bad_column _ 1 i1 [0; 0; 0]%float).
Qed.

Lemma observation_index_error_witness :
  build_observation [0] = Raise IndexError ∧
  build_observation [2; 0] = Raise IndexError ∧
  build_observation [1; -4; 7] = Raise IndexError.
Proof.
  split; [|split]; apply observation_index_error;
    first [ simpl; repeat (apply List.Forall_cons; [cbv beta; lia|]); apply List.Forall_nil
          | intros i0 i1 rest Heq; simplify_eq; lia ].
Defined.

(** X13: only the first two entries of the index list are read: further
    entries change neither the result nor the output. *)
Theorem observation_ignores_extra_indices (i0 i1 : Z) (rest : list Z) :
  build_observation (i0 :: i1 :: rest) = build_observation [i0; i1].
Proof.
  rewrite !build_observation_unfold, !getitem1_head. simpl.
  destruct (setitem2 _ 0 i0 _) as [o|]; [simpl|done].
  destruct (getitem1 ["wet"; "dry"] i0) as [n0|]; [simpl|done].
  by rewrite !getitem1_second.
Qed.

End DemoExtras.
